(* ===================================================================== *)
(* Money tracker (src/main.py): the CSV ledger, the range query and the  *)
(* report computations, embedded as executable Rocq definitions.         *)
(*                                                                       *)
(* Modelling conventions                                                 *)
(*  - The backing file is [option (list row)]: [None] when the file is   *)
(*    absent, otherwise its records in file order.  A record is the list *)
(*    of its cells; the quoting done by Python's csv writer and undone   *)
(*    by pandas' reader is not modelled.                                 *)
(*  - An amount is held as a number of hundredths (Z) and added exactly. *)
(*    The code adds binary floating point numbers: statements about sums *)
(*    are made for amounts on which the two agree ([exactly_added]).     *)
(*  - pandas.read_csv takes the first record as the column header and    *)
(*    turns the default missing-value markers (the empty cell, NA, nan,  *)
(*    ...) into NaN.  It types a column as a whole; cells are read one   *)
(*    by one here, and statements about files are made for files on      *)
(*    which that is the same ([cellwise_typed], [wordy]).                *)
(*  - to_datetime takes a missing value, and the texts that name one,    *)
(*    to NaT, and holds only the days from 1677-09-22 to 2262-04-11      *)
(*    ([Dates.in_bounds]).                                               *)
(*  - Python exceptions are the [error] type; every operation returns    *)
(*    [result], and operations on the file also return the file.  A      *)
(*    function that changes the frame it is given returns that frame     *)
(*    too, and [store] holds the frame objects where aliasing matters.   *)
(* ===================================================================== *)

From Stdlib Require Import ZArith Ascii String List Lia Bool.
From stdpp Require Import base option list strings gmap fin_maps.

Local Open Scope string_scope.
Local Open Scope Z_scope.

(* --------------------------------------------------------------------- *)
(* Errors                                                                *)
(* --------------------------------------------------------------------- *)

Inductive error : Type :=
  | FileNotFoundError
  | EmptyDataError
  | ParserError
  | KeyError (name : string)
  | ValueError
  | TypeError.

Inductive result (A : Type) : Type :=
  | Ok (a : A)
  | Raise (e : error).
Arguments Ok {A} a.
Arguments Raise {A} e.

Definition bind {A B : Type} (r : result A) (k : A -> result B) : result B :=
  match r with
  | Ok a => k a
  | Raise e => Raise e
  end.

#[global] Instance result_ret : MRet result := fun A a => Ok a.
#[global] Instance result_bind : MBind result := fun A B k r => bind r k.

Fixpoint mapM {A B : Type} (f : A -> result B) (l : list A) : result (list B) :=
  match l with
  | [] => Ok []
  | a :: l' => b ← f a; bs ← mapM f l'; Ok (b :: bs)
  end.

(* --------------------------------------------------------------------- *)
(* Calendar dates and the fixed format "%d.%m.%Y"                        *)
(* --------------------------------------------------------------------- *)

Module Dates.

Record date : Type := mkdate { year : Z; month : Z; day : Z }.

Definition is_leap (y : Z) : bool :=
  ((y mod 4 =? 0) && negb (y mod 100 =? 0)) || (y mod 400 =? 0).

Definition days_in_month (y m : Z) : Z :=
  match m with
  | 2 => if is_leap y then 29 else 28
  | 4 | 6 | 9 | 11 => 30
  | _ => 31
  end.

(* datetime.date's own range check *)
Definition valid_date (d : date) : bool :=
  (1 <=? year d) && (year d <=? 9999) &&
  (1 <=? month d) && (month d <=? 12) &&
  (1 <=? day d) && (day d <=? days_in_month (year d) (month d)).

Definition digit_char (n : Z) : ascii :=
  match n with
  | 0 => "0" | 1 => "1" | 2 => "2" | 3 => "3" | 4 => "4"
  | 5 => "5" | 6 => "6" | 7 => "7" | 8 => "8" | _ => "9"
  end%char.

Definition digit_val (c : ascii) : option Z :=
  (if Ascii.eqb c "0" then Some 0 else
   if Ascii.eqb c "1" then Some 1 else
   if Ascii.eqb c "2" then Some 2 else
   if Ascii.eqb c "3" then Some 3 else
   if Ascii.eqb c "4" then Some 4 else
   if Ascii.eqb c "5" then Some 5 else
   if Ascii.eqb c "6" then Some 6 else
   if Ascii.eqb c "7" then Some 7 else
   if Ascii.eqb c "8" then Some 8 else
   if Ascii.eqb c "9" then Some 9 else None)%char.

Definition pad2 (n : Z) : string :=
  String (digit_char (n / 10 mod 10)) (String (digit_char (n mod 10)) "").

Definition pad4 (n : Z) : string :=
  String (digit_char (n / 1000 mod 10))
    (String (digit_char (n / 100 mod 10)) (pad2 n)).

(* date.strftime("%d.%m.%Y"), for the years 1000 to 9999: an earlier year is
   written by the C library without leading zeros, and the properties that
   depend on the written year are stated for days a timestamp can hold
   (in_bounds below), all of which are later. *)
Definition strftime (d : date) : string :=
  pad2 (day d) +:+ "." +:+ pad2 (month d) +:+ "." +:+ pad4 (year d).

(* Splitting at the literal dots of the format. *)
Fixpoint split_dot (s : string) : list string :=
  match s with
  | EmptyString => [""]
  | String c s' =>
      if Ascii.eqb c "."%char then "" :: split_dot s'
      else match split_dot s' with
           | [] => [String c ""]
           | p :: ps => String c p :: ps
           end
  end.

(* %d : 3[0-1] | [1-2]\d | 0[1-9] | [1-9] | " "[1-9] *)
Definition parse_day (s : string) : option Z :=
  match s with
  | String c EmptyString =>
      match digit_val c with
      | Some v => if 1 <=? v then Some v else None
      | None => None
      end
  | String c1 (String c2 EmptyString) =>
      if Ascii.eqb c1 " "%char then
        match digit_val c2 with
        | Some v => if 1 <=? v then Some v else None
        | None => None
        end
      else
        match digit_val c1, digit_val c2 with
        | Some a, Some b =>
            let v := 10 * a + b in
            if (1 <=? v) && (v <=? 31) then Some v else None
        | _, _ => None
        end
  | _ => None
  end.

(* %m : 1[0-2] | 0[1-9] | [1-9] *)
Definition parse_month (s : string) : option Z :=
  match s with
  | String c EmptyString =>
      match digit_val c with
      | Some v => if 1 <=? v then Some v else None
      | None => None
      end
  | String c1 (String c2 EmptyString) =>
      match digit_val c1, digit_val c2 with
      | Some a, Some b =>
          let v := 10 * a + b in
          if (1 <=? v) && (v <=? 12) then Some v else None
      | _, _ => None
      end
  | _ => None
  end.

(* %Y : \d\d\d\d *)
Definition parse_year (s : string) : option Z :=
  match s with
  | String c1 (String c2 (String c3 (String c4 EmptyString))) =>
      match digit_val c1, digit_val c2, digit_val c3, digit_val c4 with
      | Some a, Some b, Some c, Some d => Some (1000 * a + 100 * b + 10 * c + d)
      | _, _, _, _ => None
      end
  | _ => None
  end.

(* Matching one text against the whole format, then building the date
   (which rejects a day the month does not have, and year 0). *)
Definition strptime (s : string) : option date :=
  match split_dot s with
  | [sd; sm; sy] =>
      match parse_day sd, parse_month sm, parse_year sy with
      | Some d, Some m, Some y =>
          let r := mkdate y m d in
          if valid_date r then Some r else None
      | _, _, _ => None
      end
  | _ => None
  end.

(* A timestamp: a date and the microsecond within that day. *)
Record datetime : Type := mkdt { dt_date : date; dt_us : Z }.

Definition time_min : Z := 0.
Definition time_max : Z := 86399999999.   (* 23:59:59.999999 *)

Definition combine (d : date) (t : Z) : datetime := mkdt d t.

Definition date_ltb (a b : date) : bool :=
  (year a <? year b) ||
  ((year a =? year b) &&
   ((month a <? month b) || ((month a =? month b) && (day a <? day b)))).

Definition date_eqb (a b : date) : bool :=
  (year a =? year b) && (month a =? month b) && (day a =? day b).

Definition date_leb (a b : date) : bool := date_ltb a b || date_eqb a b.

Definition dt_leb (a b : datetime) : bool :=
  date_ltb (dt_date a) (dt_date b) ||
  (date_eqb (dt_date a) (dt_date b) && (dt_us a <=? dt_us b)).

(* pandas keeps a timestamp as nanoseconds in 64 bits: midnight of a day can
   be held from 1677-09-22 to 2262-04-11. *)
Definition first_day : date := mkdate 1677 9 22.
Definition last_day : date := mkdate 2262 4 11.

Definition in_bounds (d : date) : bool := date_leb first_day d && date_leb d last_day.

End Dates.

(* --------------------------------------------------------------------- *)
(* Data frames                                                           *)
(* --------------------------------------------------------------------- *)

(* A cell of the file: text, or the numeral of an amount (hundredths). *)
Inductive cell : Type :=
  | Txt (s : string)
  | Num (a : Z).

(* A value held by a frame. *)
Inductive value : Type :=
  | NaN
  | NaT
  | Str (s : string)
  | Number (a : Z)
  | Timestamp (t : Dates.datetime).

#[global] Instance cell_eq_dec : EqDecision cell.
Proof. solve_decision. Defined.

#[global] Instance date_eq_dec : EqDecision Dates.date.
Proof. solve_decision. Defined.

#[global] Instance datetime_eq_dec : EqDecision Dates.datetime.
Proof. solve_decision. Defined.

#[global] Instance value_eq_dec : EqDecision value.
Proof. solve_decision. Defined.

(* A frame row: its label when a column was made the index ([None] for
   the positional labels a freshly read frame has), and one value per
   column. *)
Record frow : Type := mkrow { label : option value; cells : list value }.

(* Column names are header cells: a numeric header cell names its column
   by its numeral, which no lookup of this program asks for. *)
Record DataFrame : Type := mkdf { columns : list cell; rows : list frow }.

Definition empty (df : DataFrame) : bool :=
  match rows df with [] => true | _ => false end.

Fixpoint index_of (c : cell) (l : list cell) : option nat :=
  match l with
  | [] => None
  | x :: l' => if decide (x = c) then Some O else S <$> index_of c l'
  end.

Definition cell_at (i : nat) (r : frow) : value := nth i (cells r) NaN.

(* df[name] *)
Definition getitem (df : DataFrame) (name : string) : result (list value) :=
  match index_of (Txt name) (columns df) with
  | Some i => Ok (map (cell_at i) (rows df))
  | None => Raise (KeyError name)
  end.

Fixpoint set_nth {A : Type} (i : nat) (x : A) (l : list A) : list A :=
  match i, l with
  | _, [] => []
  | O, _ :: l' => x :: l'
  | S i', y :: l' => y :: set_nth i' x l'
  end.

Definition set_cell (i : nat) (rv : frow * value) : frow :=
  mkrow (label (fst rv)) (set_nth i (snd rv) (cells (fst rv))).

(* df[name] = vals, for a column that exists and one value per row *)
Definition setitem (df : DataFrame) (name : string) (vals : list value)
  : result DataFrame :=
  match index_of (Txt name) (columns df) with
  | Some i => Ok (mkdf (columns df) (map (set_cell i) (combine (rows df) vals)))
  | None => Raise (KeyError name)
  end.

(* df[mask], df.loc[mask] *)
Fixpoint select (rs : list frow) (mask : list bool) : list frow :=
  match rs, mask with
  | r :: rs', b :: mask' => if b then r :: select rs' mask' else select rs' mask'
  | _, _ => []
  end.

Definition loc (df : DataFrame) (mask : list bool) : DataFrame :=
  mkdf (columns df) (select (rows df) mask).

(* series == "text" *)
Definition eq_str (s : string) (v : value) : bool :=
  bool_decide (v = Str s).

(* Series.sum() of a column of numbers: missing values are skipped.
   Amounts are counted in hundredths and added exactly; the code adds
   binary floating point numbers, and the two agree on the amounts
   described by exactly_added below.  A column that holds text is not a
   column of numbers: its sum is stated nowhere in this file. *)
Fixpoint sum (vs : list value) : result Z :=
  match vs with
  | [] => Ok 0
  | NaN :: vs' => sum vs'
  | Number a :: vs' => s ← sum vs'; Ok (a + s)
  | _ :: _ => Raise TypeError
  end.

(* The texts to_datetime takes for a missing time, without looking at the
   format. *)
Definition nat_strings : list string := ["NaT"; "nat"; "NAT"; "nan"; "NaN"; "NAN"].

Definition is_nat_string (s : string) : bool := bool_decide (s ∈ nat_strings).

(* pd.to_datetime(series, format=FORMAT), one element: a missing value
   stays missing; a text must match the whole format and give a date the
   timestamp type can hold (OutOfBoundsDatetime is a ValueError); a number
   is matched as its numeral, which has no second dot. *)
Definition to_datetime1 (v : value) : result value :=
  match v with
  | NaN | NaT => Ok NaT
  | Timestamp t => Ok (Timestamp t)
  | Str s =>
      if is_nat_string s then Ok NaT
      else match Dates.strptime s with
           | Some d =>
               if Dates.in_bounds d
               then Ok (Timestamp (Dates.combine d Dates.time_min))
               else Raise ValueError
           | None => Raise ValueError
           end
  | Number _ => Raise ValueError
  end.

Definition to_datetime (vs : list value) : result (list value) :=
  mapM to_datetime1 vs.

(* --------------------------------------------------------------------- *)
(* pandas.read_csv and the file                                          *)
(* --------------------------------------------------------------------- *)

Definition row : Type := list cell.

(* The state of the one path the program uses: no file, or the records of
   the file in order, each one a whole line ended by its newline, as the
   csv writer leaves them. *)
Definition fs : Type := option (list row).

(* The texts read_csv reads as a missing value by default. *)
Definition STR_NA_VALUES : list string :=
  [ ""; "#N/A"; "#N/A N/A"; "#NA"; "-1.#IND"; "-1.#QNAN"; "-NaN"; "-nan";
    "1.#IND"; "1.#QNAN"; "<NA>"; "N/A"; "NA"; "NULL"; "NaN"; "None";
    "n/a"; "nan"; "null" ].

Definition is_na (s : string) : bool := bool_decide (s ∈ STR_NA_VALUES).

(* One cell as read_csv reads it in a column of texts or of numbers (see
   cellwise_typed below for the files on which reading cell by cell is
   reading by column). *)
Definition read_cell (c : cell) : value :=
  match c with
  | Txt s => if is_na s then NaN else Str s
  | Num a => Number a
  end.

(* A record shorter than the header is filled with missing values. *)
Fixpoint read_row (n : nat) (r : row) : list value :=
  match n, r with
  | O, _ => []
  | S n', [] => NaN :: read_row n' []
  | S n', c :: r' => read_cell c :: read_row n' r'
  end.

Definition too_long (h r : row) : bool := (length h <? length r)%nat.

(* pd.read_csv(path): an absent file and an empty file raise; otherwise the
   first record is the header and the others are the rows.  A record with
   more cells than the header is rejected (the reading in which pandas
   takes a surplus first cell of every record for the index is left out). *)
Definition read_csv (f : fs) : result DataFrame :=
  match f with
  | None => Raise FileNotFoundError
  | Some [] => Raise EmptyDataError
  | Some (h :: rs) =>
      if existsb (too_long h) rs then Raise ParserError
      else Ok (mkdf h (map (fun r => mkrow None (read_row (length h) r)) rs))
  end.

Module CSV.

Definition COLUMNS : list string := ["date"; "amount"; "category"; "description"].

(* CSV.initialize_csv *)
Definition initialize_csv (f : fs) : result unit * fs :=
  match read_csv f with
  | Ok _ => (Ok tt, f)
  | Raise FileNotFoundError => (Ok tt, Some [map Txt COLUMNS])
  | Raise e => (Raise e, f)
  end.

(* CSV.add_entry: open(path, "a") creates a missing file; one record is
   written after whatever the file holds. *)
Definition add_entry (date : Dates.date) (amount : Z)
    (category description : string) (f : fs) : result unit * fs :=
  let new_entry :=
    [Txt (Dates.strftime date); Num amount; Txt category; Txt description] in
  (Ok tt, Some (app (default [] f) [new_entry])).

Definition in_range (start_date end_date : Dates.datetime) (v : value) : bool :=
  match v with
  | Timestamp t => Dates.dt_leb start_date t && Dates.dt_leb t end_date
  | _ => false
  end.

(* CSV.get_transactions *)
Definition get_transactions (start_date end_date : Dates.date) (f : fs)
  : result DataFrame :=
  df ← read_csv f;
  col ← getitem df "date";
  parsed ← to_datetime col;
  df ← setitem df "date" parsed;
  let start_date := Dates.combine start_date Dates.time_min in
  let end_date := Dates.combine end_date Dates.time_max in
  col ← getitem df "date";
  let mask := map (in_range start_date end_date) col in
  Ok (loc df mask).

End CSV.

(* A date written day, month, year. *)
Definition d (dd mm yy : Z) : Dates.date := Dates.mkdate yy mm dd.

(* The ledger of the end-to-end scenario: initialize, then three entries. *)

Definition demo_file : fs :=
  snd (CSV.add_entry (d 10 4 2024) 2000 "Expense" "Transport"
  (snd (CSV.add_entry (d 5 3 2024) 5000 "Expense" "Groceries"
  (snd (CSV.add_entry (d 1 3 2024) 50000 "Income" "Salary"
  (snd (CSV.initialize_csv None))))))).

(* --------------------------------------------------------------------- *)
(* The report computations                                               *)
(* --------------------------------------------------------------------- *)

(* df[df["category"] == c]["amount"].sum() *)
Definition category_total (df : DataFrame) (c : string) : result Z :=
  cat ← getitem df "category";
  amounts ← getitem (loc df (map (eq_str c) cat)) "amount";
  sum amounts.

(* The summary of main: total income, total expense, net savings. *)
Definition summarize (df : DataFrame) : result (Z * Z * Z) :=
  total_income ← category_total df "Income";
  total_expense ← category_total df "Expense";
  let net_savings := total_income - total_expense in
  Ok (total_income, total_expense, net_savings).

Fixpoint remove_nth {A : Type} (i : nat) (l : list A) : list A :=
  match i, l with
  | _, [] => []
  | O, _ :: l' => l'
  | S i', y :: l' => y :: remove_nth i' l'
  end.

(* df.set_index(name, inplace=True): the column leaves the frame and
   becomes the row labels. *)
Definition set_index (df : DataFrame) (name : string) : result DataFrame :=
  match index_of (Txt name) (columns df) with
  | Some i =>
      Ok (mkdf (remove_nth i (columns df))
               (map (fun r => mkrow (Some (cell_at i r)) (remove_nth i (cells r)))
                    (rows df)))
  | None => Raise (KeyError name)
  end.

Definition on_day (day : Dates.date) (r : frow) : bool :=
  match label r with
  | Some (Timestamp t) => bool_decide (Dates.dt_date t = day)
  | _ => false
  end.

(* One entry of  sub.resample("D")["amount"].sum().reindex(index,
   fill_value=0): the daily bins are labelled by midnight; a day of the
   span without rows sums to 0 and a label outside the bins is filled
   with 0, so the entry is the sum over the rows of that day. *)
Definition daily_entry (sub : DataFrame) (lbl : option value) : result Z :=
  match lbl with
  | Some (Timestamp t) =>
      if (Dates.dt_us t =? 0)%Z then
        amounts ← getitem (mkdf (columns sub) (List.filter (on_day (Dates.dt_date t)) (rows sub))) "amount";
        sum amounts
      else
        _ ← getitem sub "amount"; Ok 0
  | _ => _ ← getitem sub "amount"; Ok 0
  end.

Definition series : Type := list (option value * Z).

Definition daily_series (df : DataFrame) (c : string) : result series :=
  cat ← getitem df "category";
  let sub := loc df (map (eq_str c) cat) in
  mapM (fun lbl => v ← daily_entry sub lbl; Ok (lbl, v)) (map label (rows df)).

(* plot_transactions, up to the two series handed to the plot.  The frame
   it is given is changed in place: the second component is that frame
   after the call. *)
Definition plot_transactions (df : DataFrame)
  : result (option (series * series)) * DataFrame :=
  if empty df then (Ok None, df)
  else
    match (col ← getitem df "date"; parsed ← to_datetime col;
           setitem df "date" parsed) with
    | Raise e => (Raise e, df)
    | Ok df1 =>
        match set_index df1 "date" with
        | Raise e => (Raise e, df1)
        | Ok df2 =>
            (income_df ← daily_series df2 "Income";
             expense_df ← daily_series df2 "Expense";
             Ok (Some (income_df, expense_df)), df2)
        end
    end.

(* Group keys: frame values, made countable to key a finite map. *)
Definition value_code (v : value) : unit + unit + string + Z + (Z * Z * Z * Z) :=
  match v with
  | NaN => inl (inl (inl (inl tt)))
  | NaT => inl (inl (inl (inr tt)))
  | Str s => inl (inl (inr s))
  | Number a => inl (inr a)
  | Timestamp t =>
      inr (Dates.year (Dates.dt_date t), Dates.month (Dates.dt_date t),
           Dates.day (Dates.dt_date t), Dates.dt_us t)
  end.

Definition value_decode (c : unit + unit + string + Z + (Z * Z * Z * Z)) : value :=
  match c with
  | inl (inl (inl (inl _))) => NaN
  | inl (inl (inl (inr _))) => NaT
  | inl (inl (inr s)) => Str s
  | inl (inr a) => Number a
  | inr (y, m, dd, us) => Timestamp (Dates.mkdt (Dates.mkdate y m dd) us)
  end.

#[global] Instance value_countable : Countable value.
Proof.
  apply (inj_countable' value_code value_decode).
  intros [| | s | a | [[y m dd] us]]; reflexivity.
Defined.

Definition is_missing (v : value) : bool :=
  match v with NaN | NaT => true | _ => false end.

(* Adding one value to the running total of a group. *)
Definition add_to (acc : Z) (v : value) : result Z :=
  match v with
  | NaN => Ok acc
  | Number a => Ok (acc + a)
  | _ => Raise TypeError
  end.

(* frame.groupby(key)[val].sum(), over (key, value) pairs in row order:
   rows whose key is missing are dropped. *)
Fixpoint groupby_sum (kvs : list (value * value)) : result (gmap value Z) :=
  match kvs with
  | [] => Ok ∅
  | (k, v) :: kvs' =>
      m ← groupby_sum kvs';
      if is_missing k then Ok m
      else t ← add_to (default 0 (m !! k)) v; Ok (<[k := t]> m)
  end.

(* expense_df = df[df["category"] == "Expense"] *)
Definition expense_rows (df : DataFrame) : result DataFrame :=
  cat ← getitem df "category";
  Ok (loc df (map (eq_str "Expense") cat)).

(* expense_df.groupby("description")["amount"].sum() *)
Definition by_description (expense_df : DataFrame) : result (gmap value Z) :=
  keys ← getitem expense_df "description";
  amounts ← getitem expense_df "amount";
  groupby_sum (combine keys amounts).

(* The category breakdown: lines 98 and 103 of plot_expense_analysis. *)
Definition category_breakdown (df : DataFrame) : result (gmap value Z) :=
  expense_df ← expense_rows df;
  by_description expense_df.

(* What a function puts on the page. *)
Inductive shown : Type :=
  | Nothing
  | Written (msg : string)
  | Lines (income expense : series)
  | Pie (m : gmap value Z).

(* expense_by_category.plot(kind="pie", ...): the plot refuses a series
   without entries and a series with a negative entry (ValueError);
   otherwise the chart of the mapping is drawn. *)
Definition pie_chart (m : gmap value Z) : result shown :=
  if bool_decide (m = ∅) then Raise ValueError
  else if existsb (fun kv => snd kv <? 0) (map_to_list m) then Raise ValueError
  else Ok (Pie m).

(* plot_expense_analysis *)
Definition plot_expense_analysis (df : DataFrame) : result shown :=
  if empty df then Ok Nothing
  else
    expense_df ← expense_rows df;
    if empty expense_df then Ok (Written "No expenses to analyze.")
    else
      expense_by_category ← by_description expense_df;
      pie_chart expense_by_category.

(* --------------------------------------------------------------------- *)
(* main: one run of the page                                             *)
(* --------------------------------------------------------------------- *)

(* What the widgets hold when the script runs. *)
Record inputs : Type := mkinputs {
  in_date : Dates.date;
  in_amount : Z;
  in_category : string;
  in_description : string;
  in_add : bool;                 (* the "Add Transaction" button *)
  in_start : Dates.date;
  in_end : Dates.date
}.

(* What a run does, in order: what it shows and which operation of the
   CSV class it calls. *)
Inductive event : Type :=
  | Call_initialize_csv
  | Call_add_entry (date : Dates.date) (amount : Z) (category description : string)
  | Call_get_transactions (start_date end_date : Dates.date)
  | St_success (msg : string)
  | St_error (msg : string)
  | St_write (msg : string)
  | St_dataframe (df : DataFrame)
  | St_metric (name : string) (v : Z)
  | St_pyplot (s : shown)
  | Uncaught (e : error).

Definition show_plot (r : result shown) : list event :=
  match r with
  | Ok Nothing => []
  | Ok (Written msg) => [St_write msg]
  | Ok s => [St_pyplot s]
  | Raise e => [Uncaught e]
  end.

Definition lines_of (r : result (option (series * series))) : result shown :=
  match r with
  | Ok None => Ok Nothing
  | Ok (Some (i, e)) => Ok (Lines i e)
  | Raise e => Raise e
  end.

(* The part of main under "View Transactions".  The two plot functions are
   called on df.copy(): what plot_transactions does to the frame it is given
   happens to the copy, so only its result is kept here. *)
Definition view (start_date end_date : Dates.date) (f : fs) : list event :=
  if Dates.date_ltb end_date start_date then
    [St_error "Error: Start date cannot be after end date."]
  else
    Call_get_transactions start_date end_date ::
    match CSV.get_transactions start_date end_date f with
    | Raise e => [Uncaught e]
    | Ok df =>
        if empty df then
          [St_write "No transactions found in the selected date range."]
        else
          St_write ("Transactions from " +:+ Dates.strftime start_date +:+
                    " to " +:+ Dates.strftime end_date) ::
          St_dataframe df ::
          match summarize df with
          | Raise e => [Uncaught e]
          | Ok (total_income, total_expense, net_savings) =>
              St_metric "Total Income" total_income ::
              St_metric "Total Expense" total_expense ::
              St_metric "Net Savings" net_savings ::
              match lines_of (fst (plot_transactions df)) with
              | Raise e => [Uncaught e]
              | r => app (show_plot r) (show_plot (plot_expense_analysis df))
              end
          end
    end.

Definition main (i : inputs) (f : fs) : list event * fs :=
  match CSV.initialize_csv f with
  | (Raise e, f1) => ([Call_initialize_csv; Uncaught e], f1)
  | (Ok _, f1) =>
      let '(added, f2) :=
        if in_add i then
          ([Call_add_entry (in_date i) (in_amount i) (in_category i) (in_description i);
            St_success "Transaction added successfully!"],
           snd (CSV.add_entry (in_date i) (in_amount i) (in_category i)
                  (in_description i) f1))
        else ([], f1) in
      (app (Call_initialize_csv :: added) (view (in_start i) (in_end i) f2), f2)
  end.

(* --------------------------------------------------------------------- *)
(* Vocabulary of the statements                                          *)
(* --------------------------------------------------------------------- *)

(* A transaction as the form hands it to add_entry. *)
Record Transaction : Type := mktx {
  t_date : Dates.date;
  t_amount : Z;
  t_category : string;
  t_description : string
}.

Definition valid_transaction (t : Transaction) : bool :=
  Dates.valid_date (t_date t) && (0 <? t_amount t) &&
  (String.eqb (t_category t) "Income" || String.eqb (t_category t) "Expense").

Definition header : row := map Txt CSV.COLUMNS.

(* The record add_entry writes for a transaction. *)
Definition entry (t : Transaction) : row :=
  [Txt (Dates.strftime (t_date t)); Num (t_amount t);
   Txt (t_category t); Txt (t_description t)].

Definition add (t : Transaction) (f : fs) : fs :=
  snd (CSV.add_entry (t_date t) (t_amount t) (t_category t) (t_description t) f).

(* Appending a sequence of transactions, first to last. *)
Definition append_all (ts : list Transaction) (f : fs) : fs :=
  fold_left (fun f t => add t f) ts f.

(* The frame row that holds the four fields of a transaction. *)
Definition frame_row (t : Transaction) : frow :=
  mkrow None [Timestamp (Dates.combine (t_date t) Dates.time_min);
              Number (t_amount t); Str (t_category t); Str (t_description t)].

Definition between (start_date end_date day : Dates.date) : bool :=
  Dates.date_leb start_date day && Dates.date_leb day end_date.

(* The day a frame row carries in column i, once the column is parsed. *)
Definition day_of (i : nat) (r : frow) : option Dates.date :=
  match cell_at i r with
  | Timestamp t => Some (Dates.dt_date t)
  | _ => None
  end.

Definition day_between (start_date end_date : Dates.date) (i : nat) (r : frow) : bool :=
  match day_of i r with
  | Some day => between start_date end_date day
  | None => false
  end.

(* A stored record as read_csv reads it under a header of n cells. *)
Definition stored (n : nat) (r : row) : frow := mkrow None (read_row n r).

(* The same row with the cell of column i parsed as a date. *)
Definition parsed (i n : nat) (r : row) : result frow :=
  v ← to_datetime1 (cell_at i (stored n r));
  Ok (set_cell i (stored n r, v)).


(* The row of a record whose date parses. *)
Definition parsed_row (i n : nat) (r : row) : frow :=
  match parsed i n r with
  | Ok r' => r'
  | Raise _ => stored n r
  end.

(* One pass over the stored rows: parse the date, keep the row when its
   timestamp is in the range. *)
Fixpoint scan (i : nat) (lo hi : Dates.datetime) (rs : list frow)
  : result (list frow) :=
  match rs with
  | [] => Ok []
  | r :: rs' =>
      v ← to_datetime1 (cell_at i r);
      rest ← scan i lo hi rs';
      let r' := set_cell i (r, v) in
      Ok (if CSV.in_range lo hi (cell_at i r') then r' :: rest else rest)
  end.

(* Sample data: the three transactions of the end-to-end scenario. *)
Definition salary : Transaction := mktx (d 1 3 2024) 50000 "Income" "Salary".
Definition groceries : Transaction := mktx (d 5 3 2024) 5000 "Expense" "Groceries".
Definition transport : Transaction := mktx (d 10 4 2024) 2000 "Expense" "Transport".


(* The date cell of a stored record is one to_datetime raises on: a text
   that is no missing-time marker and is not a date of the fixed format
   that a timestamp can hold, or a number. *)
Definition date_malformed (i n : nat) (r : row) : bool :=
  match cell_at i (stored n r) with
  | Str s =>
      if is_nat_string s then false
      else match Dates.strptime s with
           | Some d => negb (Dates.in_bounds d)
           | None => true
           end
  | Number _ => true
  | _ => false
  end.



(* A fresh ledger: the file Initialize creates when there is none. *)
Definition fresh_ledger : fs := snd (CSV.initialize_csv None).


(* The number a summed cell stands for: a missing value adds nothing. *)
Definition amount_of (v : value) : Z :=
  match v with Number a => a | _ => 0 end.

Definition numeric (v : value) : Prop :=
  match v with Number _ | NaN => True | _ => False end.

Definition total (vs : list value) : Z := fold_right Z.add 0 (map amount_of vs).

(* Following the spec's words: the sum of amount over the rows whose
   category is c (jc, ja: the positions of the two columns). *)
Definition sum_where (c : string) (jc ja : nat) (rs : list frow) : Z :=
  total (map (cell_at ja) (List.filter (fun r => eq_str c (cell_at jc r)) rs)).

Definition error_message : string := "Error: Start date cannot be after end date.".

Definition is_get_transactions (e : event) : bool :=
  match e with Call_get_transactions _ _ => true | _ => false end.

(* Widgets asking for a range whose start is after its end. *)
Definition reversed_inputs : inputs :=
  mkinputs (d 1 3 2024) 1250 "Expense" "Lunch" true (d 2 3 2024) (d 1 3 2024).


(* Following the spec's words: the Expense rows that share description k
   (jc, jd: the positions of the category and description columns). *)
Definition expense_with (k : value) (jc jd : nat) (rs : list frow) : list frow :=
  List.filter (fun r => eq_str "Expense" (cell_at jc r) &&
                        bool_decide (cell_at jd r = k)) rs.

(* The entry the breakdown should hold for k: none for a missing
   description or one no Expense row has, else those rows' summed amount. *)
Definition description_total (k : value) (jc jd ja : nat) (rs : list frow)
  : option Z :=
  if is_missing k then None
  else match expense_with k jc jd rs with
       | [] => None
       | l => Some (total (map (cell_at ja) l))
       end.

Definition group_of (k : value) (kvs : list (value * value)) : list (value * value) :=
  List.filter (fun kv => bool_decide (fst kv = k)) kvs.

Definition is_expense (jc : nat) (r : frow) : bool :=
  eq_str "Expense" (cell_at jc r).


(* A retrieved transaction: its day, amount, and the category and
   description values the frame holds for it. *)
Record dated : Type := mkdated {
  x_day : Dates.date;
  x_amount : Z;
  x_category : value;
  x_description : value
}.

Definition midnight (day : Dates.date) : value :=
  Timestamp (Dates.combine day Dates.time_min).

(* Its row in a retrieved frame, and its row once the date is the index. *)
Definition dated_row (x : dated) : frow :=
  mkrow None [midnight (x_day x); Number (x_amount x); x_category x; x_description x].

Definition indexed_row (x : dated) : frow :=
  mkrow (Some (midnight (x_day x))) [Number (x_amount x); x_category x; x_description x].

Definition retrieved (xs : list dated) : DataFrame := mkdf header (map dated_row xs).

(* The summed amount of the transactions of category c on a day. *)
Definition day_total (c : string) (day : Dates.date) (xs : list dated) : Z :=
  fold_right Z.add 0
    (map x_amount
       (List.filter (fun x => eq_str c (x_category x) &&
                              bool_decide (x_day x = day)) xs)).


Definition daily (c : string) (xs : list dated) : series :=
  map (fun x => (Some (midnight (x_day x)), day_total c (x_day x) xs)) xs.





Definition indexed_columns : list cell :=
  [Txt "amount"; Txt "category"; Txt "description"].

(* What get_transactions returns, read off in one pass: which error, in the
   order the code meets them, or the frame of the rows in the range. *)
Definition get_transactions_result (start_date end_date : Dates.date) (f : fs)
  : result DataFrame :=
  match f with
  | None => Raise FileNotFoundError
  | Some [] => Raise EmptyDataError
  | Some (h :: rs) =>
      if existsb (too_long h) rs then Raise ParserError
      else match index_of (Txt "date") h with
           | None => Raise (KeyError "date")
           | Some i =>
               if existsb (date_malformed i (length h)) rs then Raise ValueError
               else Ok (mkdf h (List.filter (day_between start_date end_date i)
                                  (map (parsed_row i (length h)) rs)))
           end
  end.

(* A ledger with a record that stops after the amount. *)
Definition short_record_file : fs :=
  Some [header; [Txt "01.03.2024"; Num 100]].

(* An Expense row whose description is not missing. *)
Definition described_expense (jc jd : nat) (r : frow) : bool :=
  is_expense jc r && negb (is_missing (cell_at jd r)).

(* The retrieved form of a stored transaction: category and description as
   read_csv reads them. *)
Definition to_dated (t : Transaction) : dated :=
  mkdated (t_date t) (t_amount t)
    (read_cell (Txt (t_category t))) (read_cell (Txt (t_description t))).

(* The transaction the form holds, and what a run of main adds. *)
Definition form_transaction (i : inputs) : Transaction :=
  mktx (in_date i) (in_amount i) (in_category i) (in_description i).

Definition new_transactions (i : inputs) : list Transaction :=
  if in_add i then [form_transaction i] else [].

Definition is_uncaught (e : event) : bool :=
  match e with Uncaught _ => true | _ => false end.

(* Widgets of a run that adds a transaction and views March 2024. *)
Definition march_inputs : inputs :=
  mkinputs (d 5 3 2024) 5000 "Expense" "Bus pass" true (d 1 3 2024) (d 31 3 2024).

(* --------------------------------------------------------------------- *)
(* Where reading cell by cell agrees with pandas                         *)
(* --------------------------------------------------------------------- *)

(* read_csv types a column as a whole: a column whose every present cell is
   a numeral, or a boolean word, becomes a column of numbers or booleans.
   Reading the cells one by one, as read_cell does, gives the same frame
   when every column is either of numerals (and missing cells) only, or of
   texts (and missing cells) none of which can be read as a number or a
   boolean.  The predicates below recognise such files; they err on the
   side of saying no. *)

Definition is_letter (c : ascii) : bool :=
  let n := nat_of_ascii c in
  ((65 <=? n) && (n <=? 90) || (97 <=? n) && (n <=? 122))%nat.

Definition is_digit (c : ascii) : bool :=
  let n := nat_of_ascii c in ((48 <=? n) && (n <=? 57))%nat.


Definition lower_char (c : ascii) : ascii :=
  let n := nat_of_ascii c in
  if ((65 <=? n) && (n <=? 90))%nat then ascii_of_nat (n + 32) else c.

Fixpoint lower (s : string) : string :=
  match s with
  | EmptyString => EmptyString
  | String c s' => String (lower_char c) (lower s')
  end.

Definition plain_char (c : ascii) : bool :=
  is_letter c || is_digit c || Ascii.eqb c " "%char.

(* A text of letters, digits and spaces that starts with a letter and is
   neither a missing-value marker, nor a boolean word, nor the start of a
   spelling of infinity or of not-a-number: no reader takes it for anything
   but text. *)
Definition wordy (s : string) : bool :=
  match s with
  | EmptyString => false
  | String c _ =>
      is_letter c && forallb plain_char (list_ascii_of_string s) &&
      negb (is_na s) &&
      negb (String.prefix "inf" (lower s)) && negb (String.prefix "nan" (lower s)) &&
      negb (String.eqb (lower s) "true") && negb (String.eqb (lower s) "false")
  end.









(* A transaction of the form that comes back as it was entered: valid, on a
   day a timestamp can hold, described by plain words. *)
Definition plain_transaction (t : Transaction) : bool :=
  valid_transaction t && Dates.in_bounds (t_date t) && wordy (t_description t).

(* Its row in a retrieved frame. *)
Definition as_dated (t : Transaction) : dated :=
  mkdated (t_date t) (t_amount t) (Str (t_category t)) (Str (t_description t)).

(* --------------------------------------------------------------------- *)
(* Vocabulary of the range query                                         *)
(* --------------------------------------------------------------------- *)

(* How the date cell of a stored record reads: as a day, when it holds a
   text of the fixed format for a day a timestamp can hold; as missing,
   when read_csv reads the cell as a missing value. *)
Definition reads_as (i n : nat) (r : row) (od : option Dates.date) : Prop :=
  match od with
  | Some day =>
      ∃ s, cell_at i (stored n r) = Str s ∧ Dates.strptime s = Some day ∧
           Dates.in_bounds day = true
  | None => cell_at i (stored n r) = NaN
  end.

(* The stored record as a frame row, its date cell holding the day. *)
Definition dated_at (i n : nat) (r : row) (od : option Dates.date) : frow :=
  set_cell i (stored n r, match od with Some day => midnight day | None => NaT end).

Definition in_days (start_date end_date : Dates.date) (od : option Dates.date) : bool :=
  match od with
  | Some day => between start_date end_date day
  | None => false
  end.


(* The rows, in order, whose day passes the test. *)
Fixpoint keep_days (test : option Dates.date -> bool) (i n : nat)
    (rs : list row) (ods : list (option Dates.date)) : list frow :=
  match rs, ods with
  | r :: rs', od :: ods' =>
      if test od then dated_at i n r od :: keep_days test i n rs' ods'
      else keep_days test i n rs' ods'
  | _, _ => []
  end.



(* --------------------------------------------------------------------- *)
(* Frames as objects                                                     *)
(* --------------------------------------------------------------------- *)










(* ===================================================================== *)
(* Properties                                                            *)
(* ===================================================================== *)

Section DateFormat.

Import Dates.

Lemma digit_cases (k : Z) :
  0 <= k < 10 ->
  k = 0 \/ k = 1 \/ k = 2 \/ k = 3 \/ k = 4 \/
  k = 5 \/ k = 6 \/ k = 7 \/ k = 8 \/ k = 9.
Proof. lia. Qed.

Ltac each_digit k H :=
  destruct (digit_cases k H) as [->|[->|[->|[->|[->|[->|[->|[->|[->| ->]]]]]]]]].

Lemma digit_val_char (k : Z) : 0 <= k < 10 -> digit_val (digit_char k) = Some k.
Proof. intros H. each_digit k H; reflexivity. Qed.

Lemma digit_char_not_dot (k : Z) : Ascii.eqb (digit_char k) "."%char = false.
Proof. destruct k as [|p|p]; try reflexivity. do 4 (destruct p; try reflexivity). Qed.

Lemma digit_char_not_space (k : Z) : Ascii.eqb (digit_char k) " "%char = false.
Proof. destruct k as [|p|p]; try reflexivity. do 4 (destruct p; try reflexivity). Qed.

Lemma split_dot_strftime (d : date) :
  split_dot (strftime d) = [pad2 (day d); pad2 (month d); pad4 (year d)].
Proof.
  unfold strftime, pad4, pad2. cbv [String.append].
  cbn [split_dot]. rewrite !digit_char_not_dot. reflexivity.
Qed.

Lemma parse_day_pad2 (n : Z) : 1 <= n <= 31 -> parse_day (pad2 n) = Some n.
Proof.
  intros H. unfold parse_day, pad2.
  rewrite digit_char_not_space.
  rewrite !digit_val_char by (apply Z.mod_pos_bound; lia).
  cbv zeta.
  replace (10 * (n / 10 mod 10) + n mod 10) with n
    by (rewrite (Z.mod_small (n / 10)) by (split; [apply Z.div_pos|apply Z.div_lt_upper_bound]; lia);
        pose proof (Z.div_mod n 10); lia).
  destruct (Z.leb_spec 1 n); [|lia]. destruct (Z.leb_spec n 31); [|lia]. reflexivity.
Qed.

Lemma parse_month_pad2 (n : Z) : 1 <= n <= 12 -> parse_month (pad2 n) = Some n.
Proof.
  intros H. unfold parse_month, pad2.
  rewrite !digit_val_char by (apply Z.mod_pos_bound; lia).
  cbv zeta.
  replace (10 * (n / 10 mod 10) + n mod 10) with n
    by (rewrite (Z.mod_small (n / 10)) by (split; [apply Z.div_pos|apply Z.div_lt_upper_bound]; lia);
        pose proof (Z.div_mod n 10); lia).
  destruct (Z.leb_spec 1 n); [|lia]. destruct (Z.leb_spec n 12); [|lia]. reflexivity.
Qed.

Lemma parse_year_pad4 (n : Z) : 0 <= n <= 9999 -> parse_year (pad4 n) = Some n.
Proof.
  intros H. unfold parse_year, pad4, pad2.
  rewrite !digit_val_char by (apply Z.mod_pos_bound; lia).
  f_equal.
  replace (n / 1000) with (n / 10 / 10 / 10)
    by (rewrite !Z.div_div by lia; reflexivity).
  replace (n / 100) with (n / 10 / 10)
    by (rewrite !Z.div_div by lia; reflexivity).
  pose proof (Z.div_mod n 10 ltac:(lia)) as E1.
  pose proof (Z.mod_pos_bound n 10 ltac:(lia)) as B1.
  pose proof (Z.div_mod (n / 10) 10 ltac:(lia)) as E2.
  pose proof (Z.mod_pos_bound (n / 10) 10 ltac:(lia)) as B2.
  pose proof (Z.div_mod (n / 10 / 10) 10 ltac:(lia)) as E3.
  pose proof (Z.mod_pos_bound (n / 10 / 10) 10 ltac:(lia)) as B3.
  rewrite (Z.mod_small (n / 10 / 10 / 10)); [lia|].
  split; [repeat apply Z.div_pos; lia|].
  repeat (apply Z.div_lt_upper_bound; [lia|]). lia.
Qed.

Lemma valid_date_bounds (d : date) :
  valid_date d = true ->
  1 <= year d <= 9999 /\ 1 <= month d <= 12 /\ 1 <= day d <= 31.
Proof.
  unfold valid_date. rewrite !andb_true_iff, !Z.leb_le.
  intros [[[[[? ?] ?] ?] ?] Hd].
  assert (days_in_month (year d) (month d) <= 31).
  { unfold days_in_month.
    assert (Hm : month d = 1 \/ month d = 2 \/ month d = 3 \/ month d = 4 \/
                 month d = 5 \/ month d = 6 \/ month d = 7 \/ month d = 8 \/
                 month d = 9 \/ month d = 10 \/ month d = 11 \/ month d = 12) by lia.
    destruct Hm as [E|[E|[E|[E|[E|[E|[E|[E|[E|[E|[E|E]]]]]]]]]]]; rewrite E;
      try destruct (is_leap _); lia. }
  lia.
Qed.

(* A valid date survives being written and read back in the fixed format. *)
Lemma strptime_strftime (d : date) :
  valid_date d = true -> strptime (strftime d) = Some d.
Proof.
  intros Hv. destruct (valid_date_bounds d Hv) as (Hy & Hm & Hd).
  unfold strptime. rewrite split_dot_strftime.
  rewrite parse_day_pad2, parse_month_pad2, parse_year_pad4 by lia.
  cbv zeta. destruct d as [y m dd]. simpl in *. now rewrite Hv.
Qed.

Lemma strftime_length (d : date) : String.length (strftime d) = 10%nat.
Proof. reflexivity. Qed.

End DateFormat.

Section Frames.

Lemma is_na_length10 (s : string) : String.length s = 10%nat -> is_na s = false.
Proof.
  intros Hl. unfold is_na. apply bool_decide_eq_false. intros Hin.
  unfold STR_NA_VALUES in Hin.
  repeat (apply elem_of_cons in Hin as [-> | Hin]; [discriminate Hl|]).
  now apply elem_of_nil in Hin.
Qed.


Lemma index_of_lt (c : cell) (l : list cell) (i : nat) :
  index_of c l = Some i -> (i < length l)%nat.
Proof.
  revert i. induction l as [|x l IH]; intros i; simpl; [discriminate|].
  destruct (decide (x = c)).
  - intros [= <-]. lia.
  - destruct (index_of c l) as [j|]; simpl; [|discriminate].
    intros [= <-]. specialize (IH j eq_refl). lia.
Qed.

Lemma read_row_length (n : nat) (r : row) : length (read_row n r) = n.
Proof. revert r. induction n as [|n IH]; intros [|c r]; simpl; auto. Qed.

Lemma nth_set_nth {A : Type} (i : nat) (x d0 : A) (l : list A) :
  (i < length l)%nat -> nth i (set_nth i x l) d0 = x.
Proof.
  revert i. induction l as [|y l IH]; intros [|i]; simpl; try lia; auto.
  intros H. apply IH. lia.
Qed.

(* The four passes of get_transactions over the rows (parse the column,
   store it back, build the mask, select) agree with the single pass. *)
Lemma passes_scan (i : nat) (lo hi : Dates.datetime) (rs : list frow) :
  (vs ← to_datetime (map (cell_at i) rs);
   let rs' := map (set_cell i) (combine rs vs) in
   Ok (select rs' (map (CSV.in_range lo hi) (map (cell_at i) rs'))))
  = scan i lo hi rs.
Proof.
  unfold to_datetime. induction rs as [|r rs IH]; [reflexivity|].
  cbn [map mapM scan]. unfold mbind, result_bind in *.
  destruct (to_datetime1 (cell_at i r)) as [v|e]; cbn [bind]; [|reflexivity].
  rewrite <- IH.
  destruct (mapM to_datetime1 (map (cell_at i) rs)) as [vs|e]; cbn [bind]; [|reflexivity].
  cbn [combine map select]. now destruct (CSV.in_range lo hi _).
Qed.

Lemma get_transactions_scan (h : row) (rs : list row) (i : nat)
    (start_date end_date : Dates.date) :
  index_of (Txt "date") h = Some i ->
  existsb (too_long h) rs = false ->
  CSV.get_transactions start_date end_date (Some (h :: rs)) =
  (rows' ← scan i (Dates.combine start_date Dates.time_min)
                  (Dates.combine end_date Dates.time_max)
                  (map (stored (length h)) rs);
   Ok (mkdf h rows')).
Proof.
  intros Hi Hlong. rewrite <- passes_scan.
  unfold CSV.get_transactions, read_csv. rewrite Hlong.
  unfold mbind, result_bind, getitem, setitem, loc. cbn [bind columns rows].
  rewrite Hi. cbn [bind]. fold (stored (length h)).
  change (map (fun r => mkrow None (read_row (length h) r)) rs)
    with (map (stored (length h)) rs).
  destruct (to_datetime (map (cell_at i) (map (stored (length h)) rs))) as [vs|e];
    cbn [bind columns rows]; [|reflexivity].
  rewrite Hi. reflexivity.
Qed.

Lemma get_transactions_no_date (h : row) (rs : list row)
    (start_date end_date : Dates.date) :
  index_of (Txt "date") h = None ->
  existsb (too_long h) rs = false ->
  CSV.get_transactions start_date end_date (Some (h :: rs)) = Raise (KeyError "date").
Proof.
  intros Hi Hlong. unfold CSV.get_transactions, read_csv. rewrite Hlong.
  unfold mbind, result_bind, getitem. cbn [bind columns]. now rewrite Hi.
Qed.

Lemma append_all_some (ts : list Transaction) (rs : list row) :
  append_all ts (Some rs) = Some (app rs (map entry ts)).
Proof.
  revert rs. induction ts as [|t ts IH]; intros rs; simpl.
  - now rewrite app_nil_r.
  - unfold add at 1. simpl. rewrite IH. now rewrite <- app_assoc.
Qed.

Lemma entries_not_too_long (h : row) (ts : list Transaction) :
  length h = 4%nat -> existsb (too_long h) (map entry ts) = false.
Proof.
  intros Hh. induction ts as [|t ts IH]; [reflexivity|].
  simpl. rewrite IH. unfold too_long. rewrite Hh. reflexivity.
Qed.

End Frames.

Section DateOrder.

Import Dates.

Lemma date_ltb_lt (a b : date) :
  date_ltb a b = true <->
  year a < year b \/
  (year a = year b /\ (month a < month b \/ (month a = month b /\ day a < day b))).
Proof.
  unfold date_ltb.
  rewrite !orb_true_iff, !andb_true_iff, !orb_true_iff, !andb_true_iff,
    !Z.ltb_lt, !Z.eqb_eq. tauto.
Qed.

Lemma date_eqb_eq (a b : date) : date_eqb a b = true <-> a = b.
Proof.
  unfold date_eqb. rewrite !andb_true_iff, !Z.eqb_eq.
  destruct a, b; simpl. split; [intros [[-> ->] ->]; reflexivity|].
  intros [= -> -> ->]. auto.
Qed.

Lemma date_leb_le (a b : date) :
  date_leb a b = true <-> date_ltb a b = true \/ a = b.
Proof. unfold date_leb. now rewrite orb_true_iff, date_eqb_eq. Qed.

(* The order on days is total: not (a <= b) is b < a. *)
Lemma date_leb_false (a b : date) : date_leb a b = false <-> date_ltb b a = true.
Proof.
  rewrite <- not_true_iff_false, date_leb_le, !date_ltb_lt.
  destruct a as [ya ma da], b as [yb mb db]; simpl. split.
  - intros H.
    destruct (Z.lt_trichotomy ya yb) as [?|[?|?]]; [exfalso; apply H; lia| |lia].
    destruct (Z.lt_trichotomy ma mb) as [?|[?|?]]; [exfalso; apply H; lia| |lia].
    destruct (Z.lt_trichotomy da db) as [?|[?|?]]; [exfalso; apply H; lia| |lia].
    exfalso. apply H. right. congruence.
  - intros H [H'|[= -> -> ->]]; lia.
Qed.


(* Midnight of a day lies between midnight of the first day and the last
   instant of the last day exactly when the day lies between the days. *)
Lemma in_range_midnight (start_date end_date day : date) :
  CSV.in_range (combine start_date time_min) (combine end_date time_max)
    (Timestamp (combine day time_min)) = between start_date end_date day.
Proof.
  unfold CSV.in_range, dt_leb, between, date_leb, combine. simpl.
  now rewrite !andb_true_r.
Qed.

End DateOrder.

Section Retrieval.

Lemma strptime_not_nat_string (s : string) (day : Dates.date) :
  Dates.strptime s = Some day -> is_nat_string s = false.
Proof.
  intros H. destruct (is_nat_string s) eqn:E; [|reflexivity].
  apply bool_decide_eq_true in E. unfold nat_strings in E.
  repeat (apply elem_of_cons in E as [-> | E]; [vm_compute in H; discriminate H|]).
  now apply elem_of_nil in E.
Qed.

Lemma to_datetime1_day (s : string) (day : Dates.date) :
  Dates.strptime s = Some day -> Dates.in_bounds day = true ->
  to_datetime1 (Str s) = Ok (midnight day).
Proof.
  intros Hs Hb. cbn [to_datetime1].
  now rewrite (strptime_not_nat_string s day Hs), Hs, Hb.
Qed.

Lemma cell_at_set (i n : nat) (r : row) (v : value) :
  (i < n)%nat -> cell_at i (set_cell i (stored n r, v)) = v.
Proof.
  intros Hi. unfold cell_at, set_cell. cbn [fst snd cells stored].
  apply nth_set_nth. now rewrite read_row_length.
Qed.

(* The pass over the stored rows, for records whose date cells read as
   days or as missing. *)
Lemma scan_reads (i n : nat) (start_date end_date : Dates.date)
    (rs : list row) (ods : list (option Dates.date)) :
  (i < n)%nat ->
  Forall2 (reads_as i n) rs ods ->
  scan i (Dates.combine start_date Dates.time_min)
         (Dates.combine end_date Dates.time_max) (map (stored n) rs)
  = Ok (keep_days (in_days start_date end_date) i n rs ods).
Proof.
  intros Hi. induction 1 as [|r od rs ods Hr _ IH]; [reflexivity|].
  cbn [map scan keep_days]. unfold mbind, result_bind. rewrite IH.
  unfold dated_at. destruct od as [day|]; cbn [reads_as in_days] in *.
  - destruct Hr as (s & Hs & Hp & Hb). rewrite Hs, (to_datetime1_day s day Hp Hb).
    cbn [bind]. rewrite (cell_at_set i n r _ Hi).
    unfold midnight. now rewrite in_range_midnight.
  - rewrite Hr. cbn [to_datetime1 bind]. rewrite (cell_at_set i n r _ Hi).
    reflexivity.
Qed.

Lemma get_transactions_reads (h : row) (rs : list row) (i : nat)
    (ods : list (option Dates.date)) (start_date end_date : Dates.date) :
  index_of (Txt "date") h = Some i ->
  existsb (too_long h) rs = false ->
  Forall2 (reads_as i (length h)) rs ods ->
  CSV.get_transactions start_date end_date (Some (h :: rs))
  = Ok (mkdf h (keep_days (in_days start_date end_date) i (length h) rs ods)).
Proof.
  intros Hi Hlong Hall. rewrite (get_transactions_scan h rs i _ _ Hi Hlong).
  now rewrite (scan_reads i (length h) _ _ rs ods (index_of_lt _ _ _ Hi) Hall).
Qed.



End Retrieval.

Section RangeQuery.



End RangeQuery.

Section MalformedDates.

Lemma to_datetime1_raises (v : value) (e : error) :
  to_datetime1 v = Raise e -> e = ValueError.
Proof.
  destruct v as [| |s|a|t]; simpl; try discriminate.
  - destruct (is_nat_string s); [discriminate|].
    destruct (Dates.strptime s) as [day|]; [|now intros [= <-]].
    destruct (Dates.in_bounds day); [discriminate|now intros [= <-]].
  - now intros [= <-].
Qed.

Lemma date_malformed_raises (i n : nat) (r : row) :
  date_malformed i n r = true ->
  to_datetime1 (cell_at i (stored n r)) = Raise ValueError.
Proof.
  unfold date_malformed. destruct (cell_at i (stored n r)) as [| |s|a|t];
    simpl; try discriminate; [|reflexivity].
  destruct (is_nat_string s); [discriminate|].
  destruct (Dates.strptime s) as [day|]; [|reflexivity].
  destruct (Dates.in_bounds day); [discriminate|reflexivity].
Qed.

Lemma scan_malformed (i n : nat) (lo hi : Dates.datetime) (rs : list row) :
  Exists (fun r => date_malformed i n r = true) rs ->
  scan i lo hi (map (stored n) rs) = Raise ValueError.
Proof.
  induction 1 as [r rs Hr|r rs _ IH]; cbn [map scan]; unfold mbind, result_bind.
  - now rewrite (date_malformed_raises i n r Hr).
  - rewrite IH.
    destruct (to_datetime1 (cell_at i (stored n r))) as [v|e] eqn:E; [reflexivity|].
    cbn [bind]. now rewrite (to_datetime1_raises _ _ E).
Qed.






End MalformedDates.

Section RoundTrip.

Lemma valid_transaction_inv (t : Transaction) :
  valid_transaction t = true ->
  Dates.valid_date (t_date t) = true ∧ 0 < t_amount t ∧
  (t_category t = "Income" ∨ t_category t = "Expense").
Proof.
  unfold valid_transaction.
  rewrite !andb_true_iff, orb_true_iff, Z.ltb_lt, !String.eqb_eq. tauto.
Qed.

Lemma wordy_not_na (s : string) : wordy s = true -> is_na s = false.
Proof.
  destruct s as [|c s]; [discriminate|]. unfold wordy.
  rewrite !andb_true_iff, !negb_true_iff. tauto.
Qed.

Lemma date_text_cell (day : Dates.date) :
  read_cell (Txt (Dates.strftime day)) = Str (Dates.strftime day).
Proof.
  unfold read_cell. now rewrite (is_na_length10 _ (strftime_length day)).
Qed.

(* The record of a transaction reads as its own day. *)
Lemma entry_reads (t : Transaction) :
  Dates.valid_date (t_date t) = true ->
  Dates.in_bounds (t_date t) = true ->
  reads_as 0 4 (entry t) (Some (t_date t)).
Proof.
  intros Hv Hb. exists (Dates.strftime (t_date t)). split; [|split].
  - unfold cell_at, stored, entry. cbn [read_row cells nth]. apply date_text_cell.
  - now apply strptime_strftime.
  - exact Hb.
Qed.

Lemma dated_at_entry (t : Transaction) :
  dated_at 0 4 (entry t) (Some (t_date t))
  = mkrow None [midnight (t_date t); Number (t_amount t);
                read_cell (Txt (t_category t)); read_cell (Txt (t_description t))].
Proof. reflexivity. Qed.

Lemma frame_row_entry (t : Transaction) :
  valid_transaction t = true ->
  wordy (t_description t) = true ->
  dated_at 0 4 (entry t) (Some (t_date t)) = frame_row t.
Proof.
  intros Hv Hw. rewrite dated_at_entry. unfold frame_row, midnight, read_cell.
  rewrite (wordy_not_na _ Hw).
  apply valid_transaction_inv in Hv as (_ & _ & [-> | ->]); reflexivity.
Qed.

Lemma fresh_ledger_eq : fresh_ledger = Some [header].
Proof. reflexivity. Qed.




End RoundTrip.

Section MissingHeader.

Lemma scan_rows_from (i : nat) (lo hi : Dates.datetime) (rs : list frow) :
  ∀ out, scan i lo hi rs = Ok out ->
    (length out <= length rs)%nat ∧
    ∀ r, In r out -> ∃ r0 v, In r0 rs ∧ r = set_cell i (r0, v).
Proof.
  induction rs as [|r0 rs IH]; cbn [scan]; unfold mbind, result_bind.
  - intros out [= <-]. split; [reflexivity|]. intros r [].
  - destruct (to_datetime1 (cell_at i r0)) as [v|e]; cbn [bind]; [|discriminate].
    destruct (scan i lo hi rs) as [rest|e]; cbn [bind]; [|discriminate].
    destruct (IH rest eq_refl) as (Hlen & Hfrom).
    intros out [= <-]. split.
    + destruct (CSV.in_range lo hi _); simpl; lia.
    + intros r Hr.
      assert (Hcase : r = set_cell i (r0, v) ∨ In r rest)
        by (destruct (CSV.in_range lo hi _); [destruct Hr; auto|auto]).
      destruct Hcase as [-> | Hin].
      * exists r0, v. split; [now left|reflexivity].
      * destruct (Hfrom r Hin) as (r1 & v1 & Hin1 & ->).
        exists r1, v1. split; [now right|reflexivity].
Qed.

Lemma strftime_not_date (day : Dates.date) : Dates.strftime day ≠ "date".
Proof. intros H. apply (f_equal String.length) in H. discriminate H. Qed.

Lemma entry_has_no_date_column (t : Transaction) :
  t_category t ≠ "date" -> t_description t ≠ "date" ->
  index_of (Txt "date") (entry t) = None.
Proof.
  intros Hc Hd. unfold entry. cbn [index_of].
  pose proof (strftime_not_date (t_date t)).
  repeat (destruct (decide _) as [E|_]; [congruence|]). reflexivity.
Qed.

(** C10: add_entry on an absent file creates it with the transaction's
    record as its first line, without a header; read_csv then takes that
    record for the column header, so whatever is appended afterwards, no
    result of get_transactions holds that first transaction: when the read
    succeeds its rows all come from the later records, and for a category
    and a description other than the word date it raises KeyError. *)
Theorem add_entry_without_initialize
    (t : Transaction) (ts : list Transaction) (start_date end_date : Dates.date) :
  add t None = Some [entry t]
  ∧ read_csv (append_all (t :: ts) None)
    = Ok (mkdf (entry t) (map (stored 4) (map entry ts)))
  ∧ (∀ df, CSV.get_transactions start_date end_date (append_all (t :: ts) None)
             = Ok df ->
       columns df = entry t ∧ (length (rows df) <= length ts)%nat ∧
       ∀ r, In r (rows df) ->
         ∃ t' i v, In t' ts ∧ r = set_cell i (stored 4 (entry t'), v))
  ∧ (t_category t ≠ "date" -> t_description t ≠ "date" ->
     CSV.get_transactions start_date end_date (append_all (t :: ts) None)
       = Raise (KeyError "date")).
Proof.
  assert (Hfile : append_all (t :: ts) None = Some (entry t :: map entry ts)).
  { cbn [append_all fold_left]. change (add t None) with (Some [entry t]).
    fold (append_all ts (Some [entry t])). now rewrite append_all_some. }
  assert (Hlong : existsb (too_long (entry t)) (map entry ts) = false)
    by (apply entries_not_too_long; reflexivity).
  split; [reflexivity|]. split; [|split].
  - rewrite Hfile. unfold read_csv. rewrite Hlong. reflexivity.
  - intros df. rewrite Hfile.
    destruct (index_of (Txt "date") (entry t)) as [i|] eqn:Hi.
    + rewrite (get_transactions_scan _ _ i _ _ Hi Hlong).
      unfold mbind, result_bind.
      destruct (scan i _ _ _) as [out|e] eqn:Hscan; cbn [bind]; [|discriminate].
      intros [= <-]. cbn [columns rows].
      destruct (scan_rows_from _ _ _ _ out Hscan) as (Hlen & Hfrom).
      rewrite !length_map in Hlen. split; [reflexivity|]. split; [exact Hlen|].
      intros r Hr. destruct (Hfrom r Hr) as (r0 & v & Hin & ->).
      apply in_map_iff in Hin as (row0 & <- & Hin).
      apply in_map_iff in Hin as (t' & <- & Hin).
      exists t', i, v. split; [exact Hin|reflexivity].
    + rewrite (get_transactions_no_date _ _ _ _ Hi Hlong). discriminate.
  - intros Hc Hd. rewrite Hfile.
    apply get_transactions_no_date; [now apply entry_has_no_date_column|exact Hlong].
Qed.

End MissingHeader.

Section Initialize.



End Initialize.

Section QueryFlow.

Lemma view_reversed (start_date end_date : Dates.date) (f : fs) :
  Dates.date_ltb end_date start_date = true ->
  view start_date end_date f = [St_error error_message].
Proof. intros H. unfold view. now rewrite H. Qed.

(** C9: when the start date is after the end date, the query part of the
    page shows the error message and nothing else; in the whole run of main
    no call of get_transactions occurs, and the error message is shown
    whenever the run gets past initialize_csv. *)
Theorem reversed_range_is_blocked (i : inputs) (f : fs) :
  Dates.date_ltb (in_end i) (in_start i) = true ->
  view (in_start i) (in_end i) f = [St_error error_message]
  ∧ existsb is_get_transactions (fst (main i f)) = false
  ∧ (fst (CSV.initialize_csv f) = Ok tt ->
     In (St_error error_message) (fst (main i f))).
Proof.
  intros H. split; [now apply view_reversed|].
  unfold main. destruct (CSV.initialize_csv f) as [[[]|e] f1].
  - destruct (in_add i); cbn [fst]; rewrite (view_reversed _ _ _ H);
      (split; [reflexivity|]); intros _; apply in_or_app; right; now left.
  - split; [reflexivity|]. cbn [fst]. discriminate.
Qed.

Lemma reversed_range_is_blocked_witness :
  Dates.date_ltb (in_end reversed_inputs) (in_start reversed_inputs) = true ∧
  view (in_start reversed_inputs) (in_end reversed_inputs) fresh_ledger
    = [St_error error_message] ∧
  existsb is_get_transactions (fst (main reversed_inputs fresh_ledger)) = false.
Proof.
  split; [reflexivity|].
  pose proof (reversed_range_is_blocked reversed_inputs fresh_ledger eq_refl)
    as (Hview & Hcalls & _).
  exact (conj Hview Hcalls).
Defined.

End QueryFlow.

Section Summary.

Lemma select_filter (p : frow -> bool) (rs : list frow) :
  select rs (map p rs) = List.filter p rs.
Proof.
  induction rs as [|r rs IH]; [reflexivity|].
  cbn [map select List.filter]. rewrite IH. reflexivity.
Qed.

Lemma sum_numeric (vs : list value) :
  Forall numeric vs -> sum vs = Ok (total vs).
Proof.
  unfold total. induction 1 as [|v vs Hv _ IH]; [reflexivity|].
  destruct v; try contradiction; cbn [sum map fold_right amount_of].
  - rewrite IH. reflexivity.
  - unfold mbind, result_bind. rewrite IH. reflexivity.
Qed.

Lemma filter_numeric (ja : nat) (p : frow -> bool) (rs : list frow) :
  Forall (fun r => numeric (cell_at ja r)) rs ->
  Forall numeric (map (cell_at ja) (List.filter p rs)).
Proof.
  intros H. apply Forall_map. apply Forall_forall. intros r Hr.
  apply list_elem_of_In, filter_In in Hr as [Hr _].
  rewrite Forall_forall in H. apply H. now apply list_elem_of_In.
Qed.

Lemma category_total_eq (cols : list cell) (rs : list frow) (jc ja : nat) (c : string) :
  index_of (Txt "category") cols = Some jc ->
  index_of (Txt "amount") cols = Some ja ->
  Forall (fun r => numeric (cell_at ja r)) rs ->
  category_total (mkdf cols rs) c = Ok (sum_where c jc ja rs).
Proof.
  intros Hc Ha Hnum. unfold category_total, getitem, loc, mbind, result_bind.
  cbn [columns rows]. rewrite Hc. cbn [bind columns rows]. rewrite Ha. cbn [bind].
  rewrite map_map, (select_filter (fun r => eq_str c (cell_at jc r))).
  now apply sum_numeric, filter_numeric.
Qed.



End Summary.

Section Breakdown.

Lemma combine_map {A B C : Type} (f : A -> B) (g : A -> C) (l : list A) :
  combine (map f l) (map g l) = map (fun x => (f x, g x)) l.
Proof. induction l as [|x l IH]; [reflexivity|]. simpl. now rewrite IH. Qed.

Lemma filter_map_swap {A B : Type} (p : B -> bool) (f : A -> B) (l : list A) :
  List.filter p (map f l) = map f (List.filter (fun x => p (f x)) l).
Proof.
  induction l as [|x l IH]; [reflexivity|].
  simpl. rewrite IH. now destruct (p (f x)).
Qed.

Lemma filter_filter {A : Type} (p q : A -> bool) (l : list A) :
  List.filter q (List.filter p l) = List.filter (fun x => p x && q x) l.
Proof.
  induction l as [|x l IH]; [reflexivity|].
  simpl. destruct (p x); simpl; rewrite IH; reflexivity.
Qed.

Lemma total_cons (v : value) (vs : list value) :
  total (v :: vs) = amount_of v + total vs.
Proof. reflexivity. Qed.

Lemma add_to_numeric (acc : Z) (v : value) :
  numeric v -> add_to acc v = Ok (acc + amount_of v).
Proof. destruct v; try contradiction; intros _; simpl; f_equal; lia. Qed.

(* What groupby_sum holds for each key. *)
Lemma groupby_sum_lookup (kvs : list (value * value)) :
  Forall (fun kv => numeric (snd kv)) kvs ->
  ∃ m : gmap value Z, groupby_sum kvs = Ok m ∧
    ∀ k, m !! k =
      if is_missing k then None
      else match group_of k kvs with
           | [] => None
           | l => Some (total (map snd l))
           end.
Proof.
  induction 1 as [|[k0 v0] kvs Hv _ (m' & Hm' & Hlook)].
  - exists ∅. split; [reflexivity|]. intros k. rewrite lookup_empty.
    now destruct (is_missing k).
  - cbn [groupby_sum]. unfold mbind, result_bind. rewrite Hm'. cbn [bind snd] in *.
    destruct (is_missing k0) eqn:Hk0.
    + exists m'. split; [reflexivity|]. intros k. rewrite Hlook.
      destruct (is_missing k) eqn:Hk; [reflexivity|].
      unfold group_of. cbn [List.filter fst].
      rewrite bool_decide_eq_false_2; [reflexivity|]. congruence.
    + rewrite (add_to_numeric _ _ Hv). cbn [bind].
      eexists. split; [reflexivity|]. intros k.
      destruct (decide (k0 = k)) as [<-|Hne].
      * rewrite lookup_insert_eq, Hk0. unfold group_of. cbn [List.filter fst].
        rewrite bool_decide_eq_true_2 by reflexivity.
        cbn [map snd]. rewrite total_cons. f_equal.
        rewrite Hlook, Hk0. fold (group_of k0 kvs).
        destruct (group_of k0 kvs) as [|kv l]; [unfold total; simpl; lia|].
        change (default 0 (Some ?x)) with x. lia.
      * rewrite lookup_insert_ne by exact Hne. rewrite Hlook.
        destruct (is_missing k); [reflexivity|].
        unfold group_of. cbn [List.filter fst].
        now rewrite bool_decide_eq_false_2 by exact Hne.
Qed.

Lemma expense_rows_eq (cols : list cell) (rs : list frow) (jc : nat) :
  index_of (Txt "category") cols = Some jc ->
  expense_rows (mkdf cols rs) = Ok (mkdf cols (List.filter (is_expense jc) rs)).
Proof.
  intros Hc. unfold expense_rows, getitem, loc, mbind, result_bind.
  cbn [columns rows]. rewrite Hc. cbn [bind].
  now rewrite map_map, (select_filter (is_expense jc)).
Qed.

Lemma by_description_lookup (cols : list cell) (ex : list frow) (jd ja : nat) :
  index_of (Txt "description") cols = Some jd ->
  index_of (Txt "amount") cols = Some ja ->
  Forall (fun r => numeric (cell_at ja r)) ex ->
  ∃ m : gmap value Z, by_description (mkdf cols ex) = Ok m ∧
    ∀ k, m !! k =
      if is_missing k then None
      else match List.filter (fun r => bool_decide (cell_at jd r = k)) ex with
           | [] => None
           | l => Some (total (map (cell_at ja) l))
           end.
Proof.
  intros Hd Ha Hnum.
  unfold by_description, getitem, mbind, result_bind. cbn [columns rows].
  rewrite Hd, Ha. cbn [bind]. rewrite combine_map.
  destruct (groupby_sum_lookup
              (map (fun r => (cell_at jd r, cell_at ja r)) ex)) as (m & Hm & Hlook).
  { apply Forall_map. exact Hnum. }
  exists m. split; [exact Hm|]. intros k. rewrite Hlook.
  destruct (is_missing k); [reflexivity|].
  unfold group_of. rewrite filter_map_swap. cbn [fst].
  destruct (List.filter _ ex) as [|r l]; [reflexivity|].
  cbn [map]. now rewrite !map_map.
Qed.

End Breakdown.

Section BreakdownClaim.

Lemma category_breakdown_lookup
    (cols : list cell) (rs : list frow) (jc jd ja : nat) :
  index_of (Txt "category") cols = Some jc ->
  index_of (Txt "description") cols = Some jd ->
  index_of (Txt "amount") cols = Some ja ->
  Forall (fun r => numeric (cell_at ja r)) rs ->
  ∃ m : gmap value Z,
    category_breakdown (mkdf cols rs) = Ok m ∧
    by_description (mkdf cols (List.filter (is_expense jc) rs)) = Ok m ∧
    ∀ k, m !! k = description_total k jc jd ja rs.
Proof.
  intros Hc Hd Ha Hnum.
  assert (Hex : Forall (fun r => numeric (cell_at ja r)) (List.filter (is_expense jc) rs)).
  { apply Forall_forall. intros r Hr.
    apply list_elem_of_In, filter_In in Hr as [Hr _].
    rewrite Forall_forall in Hnum. apply Hnum. now apply list_elem_of_In. }
  destruct (by_description_lookup cols _ jd ja Hd Ha Hex) as (m & Hm & Hlook).
  exists m. split; [|split; [exact Hm|]].
  - unfold category_breakdown, mbind, result_bind.
    rewrite (expense_rows_eq cols rs jc Hc). exact Hm.
  - intros k. rewrite Hlook. unfold description_total, expense_with.
    now rewrite filter_filter.
Qed.

Lemma total_nonneg (ja : nat) (l : list frow) :
  (∀ r, In r l -> 0 <= amount_of (cell_at ja r)) ->
  0 <= total (map (cell_at ja) l).
Proof.
  induction l as [|r l IH]; intros H; [unfold total; simpl; lia|].
  cbn [map]. rewrite total_cons.
  pose proof (H r (or_introl eq_refl)).
  assert (0 <= total (map (cell_at ja) l)) by (apply IH; intros; apply H; now right).
  lia.
Qed.

(* The pie chart accepts a mapping that has an entry and no negative one. *)
Lemma pie_chart_ok (m : gmap value Z) (k : value) (v : Z) :
  m !! k = Some v ->
  (∀ k' v', m !! k' = Some v' -> 0 <= v') ->
  pie_chart m = Ok (Pie m).
Proof.
  intros Hk Hpos. unfold pie_chart.
  rewrite bool_decide_eq_false_2
    by (intros ->; rewrite lookup_empty in Hk; discriminate Hk).
  destruct (existsb _ (map_to_list m)) eqn:E; [|reflexivity].
  apply existsb_exists in E as ([k' v'] & Hin & Hneg).
  apply list_elem_of_In, elem_of_map_to_list in Hin.
  apply Hpos in Hin. cbn [snd] in Hneg. apply Z.ltb_lt in Hneg. lia.
Qed.

Lemma filter_none {A : Type} (p : A -> bool) (l : list A) :
  Forall (fun x => p x = false) l -> List.filter p l = [].
Proof.
  induction 1 as [|x l Hx _ IH]; [reflexivity|]. cbn [List.filter]. now rewrite Hx.
Qed.

(* The pie plot_expense_analysis draws, entry by entry. *)
Lemma expense_pie (cols : list cell) (rs : list frow) (jc jd ja : nat) :
  index_of (Txt "category") cols = Some jc ->
  index_of (Txt "description") cols = Some jd ->
  index_of (Txt "amount") cols = Some ja ->
  Forall (fun r => numeric (cell_at ja r)) rs ->
  Forall (fun r => is_expense jc r = true -> 0 < amount_of (cell_at ja r)) rs ->
  Exists (fun r => described_expense jc jd r = true) rs ->
  ∃ m : gmap value Z,
    plot_expense_analysis (mkdf cols rs) = Ok (Pie m) ∧
    ∀ k, m !! k = description_total k jc jd ja rs.
Proof.
  intros Hc Hd Ha Hnum Hpos Hex.
  destruct (category_breakdown_lookup cols rs jc jd ja Hc Hd Ha Hnum)
    as (m & _ & Hby & Hlook).
  exists m. split; [|exact Hlook].
  apply Exists_exists in Hex as (r0 & Hin0 & Hr0). apply list_elem_of_In in Hin0.
  unfold described_expense in Hr0. apply andb_true_iff in Hr0 as [He0 Hm0].
  apply negb_true_iff in Hm0.
  unfold plot_expense_analysis.
  replace (empty (mkdf cols rs)) with false
    by (unfold empty; cbn [rows]; destruct rs; [destruct Hin0|reflexivity]).
  unfold mbind, result_bind. rewrite (expense_rows_eq cols rs jc Hc). cbn [bind].
  assert (Hin1 : In r0 (List.filter (is_expense jc) rs)) by (apply filter_In; auto).
  replace (empty (mkdf cols (List.filter (is_expense jc) rs))) with false
    by (unfold empty; cbn [rows];
        destruct (List.filter (is_expense jc) rs); [destruct Hin1|reflexivity]).
  rewrite Hby. cbn [bind].
  assert (Hentry : ∀ k v, m !! k = Some v -> 0 <= v).
  { intros k v. rewrite Hlook. unfold description_total.
    destruct (is_missing k); [discriminate|].
    destruct (expense_with k jc jd rs) as [|r l] eqn:El; [discriminate|].
    intros [= <-].
    change (cell_at ja r :: map (cell_at ja) l) with (map (cell_at ja) (r :: l)).
    apply total_nonneg. intros r' Hr'. rewrite <- El in Hr'.
    unfold expense_with in Hr'. apply filter_In in Hr' as [Hr' Hp].
    apply andb_true_iff in Hp as [Hp _].
    rewrite Forall_forall in Hpos.
    specialize (Hpos r' (proj2 (list_elem_of_In _ _) Hr') Hp). lia. }
  assert (Hsome : is_Some (m !! cell_at jd r0)).
  { rewrite Hlook. unfold description_total. rewrite Hm0.
    assert (Hin2 : In r0 (expense_with (cell_at jd r0) jc jd rs)).
    { unfold expense_with. apply filter_In. split; [exact Hin0|].
      fold (is_expense jc r0). rewrite He0. now rewrite bool_decide_eq_true_2. }
    destruct (expense_with (cell_at jd r0) jc jd rs); [destruct Hin2|eauto]. }
  destruct Hsome as [v Hv]. exact (pie_chart_ok m _ v Hv Hentry).
Qed.



End BreakdownClaim.

Section TimeSeries.

Lemma mapM_ok {A B : Type} (f : A -> result B) (g : A -> B) (l : list A) :
  (∀ x, In x l -> f x = Ok (g x)) -> mapM f l = Ok (map g l).
Proof.
  induction l as [|x l IH]; intros H; [reflexivity|].
  cbn [mapM map]. unfold mbind, result_bind.
  rewrite (H x) by now left. cbn [bind].
  rewrite IH by (intros y Hy; apply H; now right). reflexivity.
Qed.


(* Parsing the date column of a retrieved frame and storing it back
   changes nothing: it already holds timestamps. *)
Lemma reparse_retrieved (xs : list dated) :
  (col ← getitem (retrieved xs) "date"; parsed ← to_datetime col;
   setitem (retrieved xs) "date" parsed) = Ok (retrieved xs).
Proof.
  unfold retrieved, getitem, setitem, to_datetime, mbind, result_bind.
  cbn [columns rows]. change (index_of (Txt "date") header) with (Some 0%nat).
  cbn [bind]. rewrite map_map.
  rewrite (mapM_ok to_datetime1 (fun v => v))
    by (intros v Hv; apply in_map_iff in Hv as (x & <- & _); reflexivity).
  rewrite map_id. cbn [bind]. do 2 f_equal.
  induction xs as [|x xs IH]; [reflexivity|].
  cbn [map combine]. now rewrite IH.
Qed.

Lemma set_index_retrieved (xs : list dated) :
  set_index (retrieved xs) "date" = Ok (mkdf indexed_columns (map indexed_row xs)).
Proof.
  unfold set_index, retrieved. cbn [columns rows].
  change (index_of (Txt "date") header) with (Some 0%nat).
  cbv beta iota. rewrite map_map. reflexivity.
Qed.

Lemma total_numbers (xs : list dated) :
  sum (map (fun x => Number (x_amount x)) xs)
  = Ok (fold_right Z.add 0 (map x_amount xs)).
Proof.
  induction xs as [|x xs IH]; [reflexivity|].
  cbn [map sum fold_right]. unfold mbind, result_bind. now rewrite IH.
Qed.

Lemma filter_indexed (p : frow -> bool) (xs : list dated) :
  List.filter p (map indexed_row xs)
  = map indexed_row (List.filter (fun x => p (indexed_row x)) xs).
Proof. apply filter_map_swap. Qed.

(* One entry of a daily series of the indexed frame. *)
Lemma daily_entry_indexed (c : string) (day : Dates.date) (xs : list dated) :
  daily_entry
    (mkdf indexed_columns
       (List.filter (fun r => eq_str c (cell_at 1 r)) (map indexed_row xs)))
    (Some (midnight day))
  = Ok (day_total c day xs).
Proof.
  unfold daily_entry, midnight. cbn [Dates.dt_us Dates.combine Dates.dt_date].
  change (Dates.time_min =? 0) with true. cbv iota.
  unfold getitem, mbind, result_bind. cbn [columns rows].
  change (index_of (Txt "amount") indexed_columns) with (Some 0%nat). cbn [bind].
  rewrite filter_filter, filter_indexed, map_map.
  change (fun x : dated => cell_at 0 (indexed_row x))
    with (fun x : dated => Number (x_amount x)).
  rewrite total_numbers. reflexivity.
Qed.

Lemma daily_series_indexed (c : string) (xs : list dated) :
  daily_series (mkdf indexed_columns (map indexed_row xs)) c = Ok (daily c xs).
Proof.
  unfold daily_series, getitem, loc, mbind, result_bind. cbn [columns rows].
  change (index_of (Txt "category") indexed_columns) with (Some 1%nat). cbn [bind].
  rewrite (map_map (cell_at 1)), (select_filter (fun r => eq_str c (cell_at 1 r))).
  rewrite (map_map indexed_row label). unfold daily.
  rewrite <- (map_map (fun x => Some (midnight (x_day x)))
                (fun lbl => (lbl, match lbl with
                                  | Some (Timestamp t) => day_total c (Dates.dt_date t) xs
                                  | _ => 0
                                  end))).
  apply mapM_ok. intros lbl Hl. apply in_map_iff in Hl as (x & <- & _).
  cbn [label indexed_row]. now rewrite daily_entry_indexed.
Qed.

End TimeSeries.

Section TimeSeriesClaim.

Lemma day_total_none (c : string) (day : Dates.date) (xs : list dated) :
  (∀ x, In x xs -> x_day x = day -> x_category x ≠ Str c) ->
  day_total c day xs = 0.
Proof.
  intros H. unfold day_total.
  replace (List.filter _ xs) with (@nil dated); [reflexivity|].
  symmetry. induction xs as [|x xs IH]; [reflexivity|].
  cbn [List.filter]. unfold eq_str at 1.
  destruct (decide (x_day x = day)) as [E|E].
  - rewrite bool_decide_eq_false_2 by (apply H; [now left|exact E]).
    cbn [andb]. apply IH. intros y Hy. apply H. now right.
  - rewrite (bool_decide_eq_false_2 (x_day x = day)) by exact E.
    rewrite andb_false_r. apply IH. intros y Hy. apply H. now right.
Qed.




End TimeSeriesClaim.

Section FrameEffect.















End FrameEffect.

Section Scenario.

(* The end-to-end scenario: the March query returns the first two entries;
   their summary is (500.00, 50.00, 450.00) and their breakdown has the one
   entry Groceries: 50.00. *)
Example march_query :
  CSV.get_transactions (d 1 3 2024) (d 31 3 2024) demo_file
    = Ok (mkdf header [frame_row salary; frame_row groceries]) ∧
  summarize (mkdf header [frame_row salary; frame_row groceries])
    = Ok (50000, 5000, 45000) ∧
  (∀ m, category_breakdown (mkdf header [frame_row salary; frame_row groceries]) = Ok m ->
        m !! Str "Groceries" = Some 5000 ∧ m !! Str "Salary" = None).
Proof.
  split; [reflexivity|]. split; [reflexivity|].
  intros m Hm.
  assert (Hnum : Forall (fun r => numeric (cell_at 1 r))
                   [frame_row salary; frame_row groceries]) by (repeat constructor).
  destruct (category_breakdown_lookup header _ 2 3 1 eq_refl eq_refl eq_refl Hnum)
    as (m' & Hm' & _ & Hlook).
  rewrite Hm' in Hm. injection Hm as <-. rewrite !Hlook. split; reflexivity.
Qed.

End Scenario.

(* ===================================================================== *)
(* Further properties of the code                                        *)
(* ===================================================================== *)

Section DateFormatMore.

Import Dates.

Lemma strptime_valid (s : string) (day : date) :
  strptime s = Some day -> valid_date day = true.
Proof.
  unfold strptime. intros H.
  destruct (split_dot s) as [|sd [|sm [|sy [|]]]]; try discriminate.
  destruct (parse_day sd), (parse_month sm), (parse_year sy); try discriminate.
  cbv zeta in H. destruct (valid_date _) eqn:E; [|discriminate].
  now injection H as <-.
Qed.

(** X1: a valid date from 1677-09-22 to 2262-04-11, written by strftime in
    the fixed format and parsed by to_datetime, is midnight of the same
    day; and two such dates that are written alike are equal. *)
Theorem date_text_round_trip (d1 d2 : date) :
  valid_date d1 = true -> in_bounds d1 = true ->
  valid_date d2 = true -> in_bounds d2 = true ->
  to_datetime1 (Str (strftime d1)) = Ok (midnight d1)
  ∧ (strftime d1 = strftime d2 -> d1 = d2).
Proof.
  intros H1 B1 H2 B2. split.
  - apply to_datetime1_day; [now apply strptime_strftime|exact B1].
  - intros E. apply (f_equal strptime) in E.
    rewrite !strptime_strftime in E by assumption. now injection E.
Qed.

Lemma date_text_round_trip_witness :
  valid_date (mkdate 2024 2 29) = true ∧ in_bounds (mkdate 2024 2 29) = true ∧
  valid_date (mkdate 2023 12 31) = true ∧ in_bounds (mkdate 2023 12 31) = true ∧
  to_datetime1 (Str (strftime (mkdate 2024 2 29))) = Ok (midnight (mkdate 2024 2 29)).
Proof.
  repeat (split; [reflexivity|]).
  exact (proj1 (date_text_round_trip (mkdate 2024 2 29) (mkdate 2023 12 31)
                  eq_refl eq_refl eq_refl eq_refl)).
Defined.

(** X2: whenever to_datetime parses a text of the date column to a
    timestamp, that timestamp is midnight of a valid calendar date from
    1677-09-22 to 2262-04-11, and the text strftime writes for that date
    parses to the same timestamp. *)
Theorem strptime_gives_valid_date (s : string) (t : datetime) :
  to_datetime1 (Str s) = Ok (Timestamp t) ->
  ∃ day, Timestamp t = midnight day ∧ valid_date day = true ∧ in_bounds day = true
         ∧ to_datetime1 (Str (strftime day)) = Ok (Timestamp t).
Proof.
  cbn [to_datetime1]. intros H.
  destruct (is_nat_string s); [discriminate|].
  destruct (strptime s) as [day|] eqn:Hs; [|discriminate].
  destruct (in_bounds day) eqn:Hb; [|discriminate].
  injection H as <-. exists day.
  pose proof (strptime_valid s day Hs) as Hv.
  split; [reflexivity|]. split; [exact Hv|]. split; [exact Hb|].
  apply to_datetime1_day; [now apply strptime_strftime|exact Hb].
Qed.

Lemma strptime_gives_valid_date_witness :
  to_datetime1 (Str "1.3.2024") = Ok (Timestamp (combine (mkdate 2024 3 1) time_min)) ∧
  ∃ day, Timestamp (combine (mkdate 2024 3 1) time_min) = midnight day
         ∧ valid_date day = true ∧ in_bounds day = true
         ∧ to_datetime1 (Str (strftime day))
           = Ok (Timestamp (combine (mkdate 2024 3 1) time_min)).
Proof.
  split; [reflexivity|].
  exact (strptime_gives_valid_date "1.3.2024" (combine (mkdate 2024 3 1) time_min) eq_refl).
Defined.

Lemma date_ltb_trans (a b c : date) :
  date_ltb a b = true -> date_ltb b c = true -> date_ltb a c = true.
Proof. rewrite !date_ltb_lt. lia. Qed.

Lemma date_leb_trans (a b c : date) :
  date_leb a b = true -> date_leb b c = true -> date_leb a c = true.
Proof.
  rewrite !date_leb_le. intros [H1| ->] [H2| ->]; auto.
  left. eapply date_ltb_trans; eauto.
Qed.

Lemma date_ltb_not_leb (a b : date) :
  date_ltb a b = true -> date_leb b a = false.
Proof. intros H. now apply date_leb_false. Qed.

End DateFormatMore.

Section RetrievalOutcome.

(* read_csv never produces a timestamp: a cell is missing, text or number. *)
Lemma read_row_kind (n : nat) (r : row) (i : nat) :
  match nth i (read_row n r) NaN with
  | NaT | Timestamp _ => False
  | _ => True
  end.
Proof.
  revert r i. induction n as [|n IH]; intros r i.
  - destruct i; exact I.
  - destruct r as [|c r]; destruct i as [|i]; cbn [read_row nth];
      try exact I; try apply IH.
    unfold read_cell. destruct c as [s|a]; [destruct (is_na s)|]; exact I.
Qed.

Lemma scan_clean (i n : nat) (start_date end_date : Dates.date) (rs : list row) :
  (i < n)%nat ->
  existsb (date_malformed i n) rs = false ->
  scan i (Dates.combine start_date Dates.time_min)
         (Dates.combine end_date Dates.time_max) (map (stored n) rs)
  = Ok (List.filter (day_between start_date end_date i) (map (parsed_row i n) rs)).
Proof.
  intros Hi. induction rs as [|r rs IH]; [reflexivity|].
  cbn [existsb]. rewrite orb_false_iff. intros [Hr Hrs].
  cbn [map scan List.filter]. unfold mbind, result_bind. rewrite (IH Hrs).
  unfold date_malformed in Hr. unfold parsed_row, parsed, mbind, result_bind.
  pose proof (read_row_kind n r i) as Hk.
  assert (Hnth : ∀ v, cell_at i (set_cell i (stored n r, v)) = v).
  { intros v. unfold cell_at, set_cell. cbn [fst snd cells stored].
    apply nth_set_nth. now rewrite read_row_length. }
  assert (Hdb : ∀ v, day_between start_date end_date i (set_cell i (stored n r, v))
                     = match v with
                       | Timestamp t => between start_date end_date (Dates.dt_date t)
                       | _ => false
                       end).
  { intros v. unfold day_between, day_of. rewrite Hnth. now destruct v. }
  change (nth i (read_row n r) NaN) with (cell_at i (stored n r)) in Hk.
  destruct (cell_at i (stored n r)) as [| |s|a|t] eqn:E;
    try contradiction; try discriminate; cbn [to_datetime1 bind].
  - rewrite Hnth, Hdb. reflexivity.
  - destruct (is_nat_string s); cbn [bind].
    + rewrite Hnth, Hdb. reflexivity.
    + destruct (Dates.strptime s) as [day|]; [|discriminate].
      destruct (Dates.in_bounds day); [|discriminate]. cbn [bind].
      rewrite Hnth, Hdb, in_range_midnight. reflexivity.
Qed.

Lemma scan_dirty (i n : nat) (lo hi : Dates.datetime) (rs : list row) :
  existsb (date_malformed i n) rs = true ->
  scan i lo hi (map (stored n) rs) = Raise ValueError.
Proof.
  intros H. apply scan_malformed. apply Exists_exists.
  apply existsb_exists in H as (r & Hin & Hr). exists r.
  split; [now apply list_elem_of_In|exact Hr].
Qed.

Lemma get_transactions_closed_form (start_date end_date : Dates.date) (f : fs) :
  CSV.get_transactions start_date end_date f
  = get_transactions_result start_date end_date f.
Proof.
  destruct f as [[|h rs]|]; try reflexivity.
  unfold get_transactions_result.
  destruct (existsb (too_long h) rs) eqn:Hlong.
  - unfold CSV.get_transactions, read_csv. now rewrite Hlong.
  - destruct (index_of (Txt "date") h) as [i|] eqn:Hi.
    + rewrite (get_transactions_scan h rs i _ _ Hi Hlong).
      destruct (existsb (date_malformed i (length h)) rs) eqn:Hbad.
      * now rewrite (scan_dirty _ _ _ _ _ Hbad).
      * now rewrite (scan_clean _ _ _ _ _ (index_of_lt _ _ _ Hi) Hbad).
    + now apply get_transactions_no_date.
Qed.


End RetrievalOutcome.

Section RetrievalMore.

Lemma set_nth_length {A : Type} (i : nat) (x : A) (l : list A) :
  length (set_nth i x l) = length l.
Proof.
  revert i. induction l as [|y l IH]; intros [|i]; simpl; auto.
Qed.

Lemma parsed_row_length (i n : nat) (r : row) :
  length (cells (parsed_row i n r)) = n.
Proof.
  unfold parsed_row, parsed, mbind, result_bind.
  destruct (to_datetime1 (cell_at i (stored n r))) as [v|e]; cbn [bind].
  - unfold set_cell. cbn [cells fst snd stored]. now rewrite set_nth_length, read_row_length.
  - cbn [stored cells]. apply read_row_length.
Qed.

(* The date cell of a parsed row that carries a day is midnight of it. *)
Lemma parsed_row_day (i n : nat) (r : row) (day : Dates.date) :
  (i < n)%nat ->
  day_of i (parsed_row i n r) = Some day ->
  cell_at i (parsed_row i n r) = midnight day.
Proof.
  intros Hi. unfold day_of.
  assert (Hnth : ∀ v, cell_at i (set_cell i (stored n r, v)) = v).
  { intros v. unfold cell_at, set_cell. cbn [fst snd cells stored].
    apply nth_set_nth. now rewrite read_row_length. }
  pose proof (read_row_kind n r i) as Hk.
  change (nth i (read_row n r) NaN) with (cell_at i (stored n r)) in Hk.
  unfold parsed_row, parsed, mbind, result_bind.
  destruct (cell_at i (stored n r)) as [| |s|a|t] eqn:E; try contradiction;
    cbn [to_datetime1 bind].
  - rewrite Hnth. discriminate.
  - destruct (is_nat_string s); cbn [bind]; [rewrite Hnth; discriminate|].
    destruct (Dates.strptime s) as [day'|]; cbn [bind].
    + destruct (Dates.in_bounds day'); cbn [bind].
      * rewrite Hnth. cbn [Dates.dt_date Dates.combine]. now intros [= ->].
      * rewrite E. discriminate.
    + rewrite E. discriminate.
  - rewrite E. discriminate.
Qed.

Lemma between_reversed (start_date end_date day : Dates.date) :
  Dates.date_ltb end_date start_date = true ->
  between start_date end_date day = false.
Proof.
  intros H. unfold between.
  destruct (Dates.date_leb start_date day) eqn:E1; [|reflexivity].
  destruct (Dates.date_leb day end_date) eqn:E2; [|reflexivity].
  pose proof (date_leb_trans _ _ _ E1 E2) as E.
  now rewrite (date_ltb_not_leb _ _ H) in E.
Qed.

Lemma between_narrow (s e s' e' day : Dates.date) :
  Dates.date_leb s' s = true -> Dates.date_leb e e' = true ->
  between s e day = true -> between s' e' day = true.
Proof.
  unfold between. rewrite !andb_true_iff. intros Hs He [H1 H2]. split.
  - eapply date_leb_trans; eauto.
  - eapply date_leb_trans; eauto.
Qed.

(** X4: every row get_transactions returns carries, in the date column,
    midnight of a day that lies between the start day and the end day; so a
    row whose date is missing or out of the range is in no result. *)
Theorem returned_rows_are_in_range
    (start_date end_date : Dates.date) (f : fs) (df : DataFrame) :
  CSV.get_transactions start_date end_date f = Ok df ->
  ∃ i, index_of (Txt "date") (columns df) = Some i ∧
    ∀ r, In r (rows df) ->
      ∃ day, cell_at i r = midnight day ∧ between start_date end_date day = true.
Proof.
  rewrite get_transactions_closed_form. unfold get_transactions_result.
  destruct f as [[|h rs]|]; try discriminate.
  destruct (existsb (too_long h) rs); [discriminate|].
  destruct (index_of (Txt "date") h) as [i|] eqn:Hi; [|discriminate].
  destruct (existsb (date_malformed i (length h)) rs); [discriminate|].
  intros [= <-]. exists i. split; [exact Hi|].
  cbn [rows]. intros r Hr. apply filter_In in Hr as [Hin Hb].
  apply in_map_iff in Hin as (r0 & <- & _).
  unfold day_between in Hb.
  destruct (day_of i (parsed_row i (length h) r0)) as [day|] eqn:Hd; [|discriminate].
  exists day. split; [|exact Hb].
  apply parsed_row_day; [now apply index_of_lt in Hi|exact Hd].
Qed.

Lemma returned_rows_are_in_range_witness :
  CSV.get_transactions (d 1 3 2024) (d 31 3 2024) demo_file
    = Ok (mkdf header [frame_row salary; frame_row groceries]) ∧
  ∃ i, index_of (Txt "date") header = Some i ∧
    ∀ r, In r [frame_row salary; frame_row groceries] ->
      ∃ day, cell_at i r = midnight day ∧
             between (d 1 3 2024) (d 31 3 2024) day = true.
Proof.
  split; [reflexivity|].
  exact (returned_rows_are_in_range (d 1 3 2024) (d 31 3 2024) demo_file
           (mkdf header [frame_row salary; frame_row groceries]) eq_refl).
Defined.

(** X5: get_transactions does not reject a range whose start is after its
    end: on any file it can read, it returns the frame without rows. *)
Theorem reversed_range_returns_no_rows
    (start_date end_date : Dates.date) (f : fs) (df : DataFrame) :
  Dates.date_ltb end_date start_date = true ->
  CSV.get_transactions start_date end_date f = Ok df ->
  rows df = [].
Proof.
  intros Hrev. rewrite get_transactions_closed_form. unfold get_transactions_result.
  destruct f as [[|h rs]|]; try discriminate.
  destruct (existsb (too_long h) rs); [discriminate|].
  destruct (index_of (Txt "date") h) as [i|]; [|discriminate].
  destruct (existsb (date_malformed i (length h)) rs); [discriminate|].
  intros [= <-]. cbn [rows].
  induction (map (parsed_row i (length h)) rs) as [|r l IH]; [reflexivity|].
  cbn [List.filter]. unfold day_between at 1.
  destruct (day_of i r); [now rewrite between_reversed|exact IH].
Qed.

Lemma reversed_range_returns_no_rows_witness :
  Dates.date_ltb (d 1 3 2024) (d 31 3 2024) = true ∧
  CSV.get_transactions (d 31 3 2024) (d 1 3 2024) demo_file = Ok (mkdf header []) ∧
  rows (mkdf header []) = [].
Proof.
  split; [reflexivity|]. split; [reflexivity|].
  exact (reversed_range_returns_no_rows (d 31 3 2024) (d 1 3 2024) demo_file
           (mkdf header []) eq_refl eq_refl).
Defined.

(** X6: whether get_transactions succeeds does not depend on the range, and
    a narrower range returns exactly the rows of the wider result that lie
    in the narrower range, in the same order. *)
Theorem narrower_range_refines
    (s e s' e' : Dates.date) (f : fs) (df' : DataFrame) :
  Dates.date_leb s' s = true -> Dates.date_leb e e' = true ->
  CSV.get_transactions s' e' f = Ok df' ->
  ∃ i, index_of (Txt "date") (columns df') = Some i ∧
    CSV.get_transactions s e f
      = Ok (mkdf (columns df') (List.filter (day_between s e i) (rows df'))).
Proof.
  intros Hs He. rewrite !get_transactions_closed_form. unfold get_transactions_result.
  destruct f as [[|h rs]|]; try discriminate.
  destruct (existsb (too_long h) rs); [discriminate|].
  destruct (index_of (Txt "date") h) as [i|] eqn:Hi; [|discriminate].
  destruct (existsb (date_malformed i (length h)) rs); [discriminate|].
  intros [= <-]. exists i. split; [exact Hi|]. cbn [columns rows].
  do 2 f_equal. rewrite filter_filter. apply filter_ext. intros r.
  unfold day_between. destruct (day_of i r) as [day|]; [|reflexivity].
  destruct (between s e day) eqn:E; [|now rewrite andb_false_r].
  now rewrite (between_narrow _ _ _ _ _ Hs He E).
Qed.

Lemma narrower_range_refines_witness :
  Dates.date_leb (d 1 1 2024) (d 1 3 2024) = true ∧
  Dates.date_leb (d 31 3 2024) (d 31 12 2024) = true ∧
  ∃ i, index_of (Txt "date") header = Some i ∧
    CSV.get_transactions (d 1 3 2024) (d 31 3 2024) demo_file
      = Ok (mkdf header
              (List.filter (day_between (d 1 3 2024) (d 31 3 2024) i)
                 (map frame_row [salary; groceries; transport]))).
Proof.
  split; [reflexivity|]. split; [reflexivity|].
  exact (narrower_range_refines (d 1 3 2024) (d 31 3 2024) (d 1 1 2024) (d 31 12 2024)
           demo_file (mkdf header (map frame_row [salary; groceries; transport]))
           eq_refl eq_refl eq_refl).
Defined.

(** X8: the frame get_transactions returns is rectangular: every row has
    exactly one cell per column of the header, also when the stored record
    was shorter. *)
Theorem returned_frame_is_rectangular
    (start_date end_date : Dates.date) (f : fs) (df : DataFrame) :
  CSV.get_transactions start_date end_date f = Ok df ->
  ∀ r, In r (rows df) -> length (cells r) = length (columns df).
Proof.
  rewrite get_transactions_closed_form. unfold get_transactions_result.
  destruct f as [[|h rs]|]; try discriminate.
  destruct (existsb (too_long h) rs); [discriminate|].
  destruct (index_of (Txt "date") h) as [i|]; [|discriminate].
  destruct (existsb (date_malformed i (length h)) rs); [discriminate|].
  intros [= <-] r Hr. cbn [rows columns] in *.
  apply filter_In in Hr as [Hin _]. apply in_map_iff in Hin as (r0 & <- & _).
  apply parsed_row_length.
Qed.

Lemma returned_frame_is_rectangular_witness :
  CSV.get_transactions (d 1 3 2024) (d 31 3 2024) short_record_file
    = Ok (mkdf header [mkrow None [midnight (d 1 3 2024); Number 100; NaN; NaN]]) ∧
  ∀ r, In r [mkrow None [midnight (d 1 3 2024); Number 100; NaN; NaN]] ->
       length (cells r) = length header.
Proof.
  split; [reflexivity|].
  exact (returned_frame_is_rectangular (d 1 3 2024) (d 31 3 2024) short_record_file
           (mkdf header [mkrow None [midnight (d 1 3 2024); Number 100; NaN; NaN]])
           eq_refl).
Defined.

End RetrievalMore.




Section RetrievedFrames.

Lemma plot_transactions_retrieved (x : dated) (xs : list dated) :
  fst (plot_transactions (retrieved (x :: xs)))
  = Ok (Some (daily "Income" (x :: xs), daily "Expense" (x :: xs))).
Proof.
  unfold plot_transactions. change (empty (retrieved (x :: xs))) with false.
  rewrite reparse_retrieved, set_index_retrieved.
  unfold mbind, result_bind. rewrite !daily_series_indexed. reflexivity.
Qed.

End RetrievedFrames.

Section OwnLedger.

Lemma plain_transaction_inv (t : Transaction) :
  plain_transaction t = true ->
  valid_transaction t = true ∧ Dates.in_bounds (t_date t) = true ∧
  wordy (t_description t) = true.
Proof. unfold plain_transaction. rewrite !andb_true_iff. tauto. Qed.

Lemma own_ledger_reads (ts : list Transaction) :
  Forall (fun t => plain_transaction t = true) ts ->
  Forall2 (reads_as 0 4) (map entry ts) (map (fun t => Some (t_date t)) ts).
Proof.
  induction 1 as [|t ts Ht _ IH]; [constructor|].
  cbn [map]. constructor; [|exact IH].
  apply plain_transaction_inv in Ht as (Hv & Hb & _).
  apply entry_reads; [|exact Hb]. now apply valid_transaction_inv in Hv as (? & _).
Qed.

Lemma own_ledger_kept (start_date end_date : Dates.date) (ts : list Transaction) :
  Forall (fun t => plain_transaction t = true) ts ->
  keep_days (in_days start_date end_date) 0 4 (map entry ts)
    (map (fun t => Some (t_date t)) ts)
  = map frame_row (List.filter (fun t => between start_date end_date (t_date t)) ts).
Proof.
  induction 1 as [|t ts Ht _ IH]; [reflexivity|].
  apply plain_transaction_inv in Ht as (Hv & _ & Hw).
  cbn [map keep_days in_days List.filter].
  destruct (between start_date end_date (t_date t)); [|exact IH].
  cbn [map]. now rewrite (frame_row_entry t Hv Hw), IH.
Qed.

(* A query on a ledger the program wrote itself. *)
Lemma own_ledger_result (start_date end_date : Dates.date) (ts : list Transaction) :
  Forall (fun t => plain_transaction t = true) ts ->
  CSV.get_transactions start_date end_date (append_all ts fresh_ledger)
  = Ok (mkdf header
          (map frame_row
             (List.filter (fun t => between start_date end_date (t_date t)) ts))).
Proof.
  intros Hp. rewrite fresh_ledger_eq, append_all_some. cbn [app].
  rewrite (get_transactions_reads header (map entry ts) 0
             (map (fun t => Some (t_date t)) ts) start_date end_date eq_refl
             (entries_not_too_long header ts eq_refl)).
  - change (length header) with 4%nat. now rewrite own_ledger_kept.
  - change (length header) with 4%nat. now apply own_ledger_reads.
Qed.

Lemma own_ledger_initialize (ts : list Transaction) :
  CSV.initialize_csv (append_all ts fresh_ledger)
  = (Ok tt, append_all ts fresh_ledger).
Proof.
  rewrite fresh_ledger_eq, append_all_some. cbn [app].
  unfold CSV.initialize_csv, read_csv.
  now rewrite (entries_not_too_long header ts eq_refl).
Qed.

Lemma append_all_snoc (t : Transaction) (ts : list Transaction) (f : fs) :
  add t (append_all ts f) = append_all (app ts [t]) f.
Proof. unfold append_all. now rewrite fold_left_app. Qed.

Lemma frame_rows_retrieved (ts : list Transaction) :
  mkdf header (map frame_row ts) = retrieved (map as_dated ts).
Proof. unfold retrieved. now rewrite map_map. Qed.

Lemma frame_rows_numeric (ts : list Transaction) :
  Forall (fun r => numeric (cell_at 1 r)) (map frame_row ts).
Proof. apply Forall_map, Forall_forall. intros t _. exact I. Qed.

(* The chart of the expenses of plain transactions is never refused. *)
Lemma plain_expense_chart (t : Transaction) (ts : list Transaction) :
  Forall (fun t => plain_transaction t = true) (t :: ts) ->
  plot_expense_analysis (mkdf header (map frame_row (t :: ts)))
    = Ok (Written "No expenses to analyze.")
  ∨ ∃ m, plot_expense_analysis (mkdf header (map frame_row (t :: ts))) = Ok (Pie m).
Proof.
  intros Hp.
  destruct (existsb (is_expense 2) (map frame_row (t :: ts))) eqn:E.
  - right. apply existsb_exists in E as (r & Hin & He).
    destruct (expense_pie header (map frame_row (t :: ts)) 2 3 1
                eq_refl eq_refl eq_refl (frame_rows_numeric (t :: ts)))
      as (m & Hm & _); [| |eauto].
    + apply Forall_map, Forall_forall. intros u Hu _.
      rewrite Forall_forall in Hp. specialize (Hp u Hu).
      apply plain_transaction_inv in Hp as (Hv & _ & _).
      apply valid_transaction_inv in Hv as (_ & Hpos & _). exact Hpos.
    + apply Exists_exists. exists r. split; [now apply list_elem_of_In|].
      unfold described_expense. rewrite He.
      apply in_map_iff in Hin as (u & <- & _). reflexivity.
  - left. unfold plot_expense_analysis.
    change (empty (mkdf header (map frame_row (t :: ts)))) with false.
    unfold mbind, result_bind.
    rewrite (expense_rows_eq header (map frame_row (t :: ts)) 2 eq_refl).
    cbn [bind]. rewrite filter_none; [reflexivity|].
    apply Forall_forall. intros r Hr. apply list_elem_of_In in Hr.
    destruct (is_expense 2 r) eqn:He; [|reflexivity].
    assert (Hex : existsb (is_expense 2) (map frame_row (t :: ts)) = true)
      by (apply existsb_exists; eauto).
    congruence.
Qed.

Lemma view_own_ledger (start_date end_date : Dates.date) (ts : list Transaction) :
  Forall (fun t => plain_transaction t = true) ts ->
  existsb is_uncaught (view start_date end_date (append_all ts fresh_ledger)) = false.
Proof.
  intros Hp. unfold view.
  destruct (Dates.date_ltb end_date start_date); [reflexivity|].
  rewrite (own_ledger_result start_date end_date ts Hp).
  assert (Hq : Forall (fun t => plain_transaction t = true)
                 (List.filter (fun t => between start_date end_date (t_date t)) ts)).
  { apply Forall_forall. intros t Ht. apply list_elem_of_In, filter_In in Ht as [Ht _].
    rewrite Forall_forall in Hp. apply Hp. now apply list_elem_of_In. }
  destruct (List.filter (fun t => between start_date end_date (t_date t)) ts)
    as [|t us]; [reflexivity|].
  change (empty (mkdf header (map frame_row (t :: us)))) with false.
  cbv iota. unfold summarize, mbind, result_bind.
  rewrite !(category_total_eq header (map frame_row (t :: us)) 2 1 _ eq_refl eq_refl
              (frame_rows_numeric (t :: us))).
  cbn [bind].
  assert (Hpt : fst (plot_transactions (mkdf header (map frame_row (t :: us))))
                = Ok (Some (daily "Income" (map as_dated (t :: us)),
                            daily "Expense" (map as_dated (t :: us))))).
  { rewrite (frame_rows_retrieved (t :: us)).
    exact (plot_transactions_retrieved (as_dated t) (map as_dated us)). }
  rewrite Hpt. cbn [lines_of show_plot].
  destruct (plain_expense_chart t us Hq) as [-> | (m & ->)]; reflexivity.
Qed.

(** X13: on a ledger the program wrote itself (none yet, or the file made by
    initialize_csv and add_entry from transactions that are valid, dated
    with days a timestamp can hold and described by plain words) a run of
    main whose form holds such a transaction ends in no uncaught exception,
    whatever the range: reading, summary and both charts all succeed. *)
Theorem main_never_fails_on_own_ledger
    (i : inputs) (ts : list Transaction) (f : fs) :
  f = None ∨ f = append_all ts fresh_ledger ->
  Forall (fun t => plain_transaction t = true) ts ->
  plain_transaction (form_transaction i) = true ->
  existsb is_uncaught (fst (main i f)) = false.
Proof.
  intros Hf Hv Hi.
  assert (Hgoal : ∀ us, Forall (fun t => plain_transaction t = true) us ->
            existsb is_uncaught (fst (main i (append_all us fresh_ledger))) = false).
  { intros us Hus. unfold main. rewrite own_ledger_initialize.
    destruct (in_add i); cbn [fst existsb is_uncaught orb app].
    - change (snd (CSV.add_entry (in_date i) (in_amount i) (in_category i)
                     (in_description i) (append_all us fresh_ledger)))
        with (add (form_transaction i) (append_all us fresh_ledger)).
      rewrite append_all_snoc.
      apply view_own_ledger. apply Forall_app. split; [exact Hus|].
      constructor; [exact Hi|constructor].
    - now apply view_own_ledger. }
  destruct Hf as [-> | ->].
  - change (main i None) with (main i (append_all [] fresh_ledger)).
    apply Hgoal. constructor.
  - exact (Hgoal ts Hv).
Qed.

Lemma main_never_fails_on_own_ledger_witness :
  Forall (fun t => plain_transaction t = true) [salary; groceries] ∧
  plain_transaction (form_transaction march_inputs) = true ∧
  existsb is_uncaught
    (fst (main march_inputs (append_all [salary; groceries] fresh_ledger))) = false.
Proof.
  assert (Hv : Forall (fun t => plain_transaction t = true) [salary; groceries])
    by (repeat constructor).
  split; [exact Hv|]. split; [reflexivity|].
  exact (main_never_fails_on_own_ledger march_inputs [salary; groceries]
           (append_all [salary; groceries] fresh_ledger) (or_intror eq_refl) Hv eq_refl).
Defined.

(** X19: on a ledger the program wrote itself from transactions that are
    valid, dated with days a timestamp can hold and described by plain
    words, get_transactions over any range returns exactly the stored
    transactions whose day is in the range, field by field, in the order in
    which they were appended. *)
Theorem own_ledger_query
    (start_date end_date : Dates.date) (ts : list Transaction) :
  Forall (fun t => plain_transaction t = true) ts ->
  CSV.get_transactions start_date end_date (append_all ts fresh_ledger)
  = Ok (mkdf header
          (map frame_row
             (List.filter (fun t => between start_date end_date (t_date t)) ts))).
Proof. apply own_ledger_result. Qed.

Lemma own_ledger_query_witness :
  Forall (fun t => plain_transaction t = true) [salary; groceries; transport] ∧
  CSV.get_transactions (d 1 3 2024) (d 31 3 2024)
    (append_all [salary; groceries; transport] fresh_ledger)
  = Ok (mkdf header
          (map frame_row
             (List.filter (fun t => between (d 1 3 2024) (d 31 3 2024) (t_date t))
                [salary; groceries; transport]))).
Proof.
  assert (Hv : Forall (fun t => plain_transaction t = true)
                 [salary; groceries; transport]) by (repeat constructor).
  split; [exact Hv|].
  exact (own_ledger_query (d 1 3 2024) (d 31 3 2024) [salary; groceries; transport] Hv).
Defined.

End OwnLedger.

Section MainEffects.

(** X15: initialize_csv does not repair a file that add_entry created
    without a header: it returns quietly and leaves the first transaction's
    record standing where the header belongs. *)
Theorem initialize_keeps_headerless_file (t : Transaction) (ts : list Transaction) :
  append_all (t :: ts) None = Some (entry t :: map entry ts)
  ∧ CSV.initialize_csv (append_all (t :: ts) None)
    = (Ok tt, Some (entry t :: map entry ts)).
Proof.
  assert (Hfile : append_all (t :: ts) None = Some (entry t :: map entry ts)).
  { cbn [append_all fold_left]. change (add t None) with (Some [entry t]).
    fold (append_all ts (Some [entry t])). now rewrite append_all_some. }
  split; [exact Hfile|]. rewrite Hfile.
  unfold CSV.initialize_csv, read_csv.
  now rewrite (entries_not_too_long (entry t) ts eq_refl).
Qed.

(** X14: a run of main on a ledger the program wrote itself only appends
    to the file: no file yet becomes the header followed by what the run
    adds, and the records of the ledger all stay, in place, followed by the
    one record of the form when the button was pressed and by nothing when
    it was not.  (The date of the form is a valid day a timestamp can
    hold.) *)
Theorem main_only_appends (i : inputs) (ts : list Transaction) :
  Dates.valid_date (in_date i) = true ->
  Dates.in_bounds (in_date i) = true ->
  snd (main i None) = append_all (new_transactions i) fresh_ledger
  ∧ snd (main i (append_all ts fresh_ledger))
    = append_all (app ts (new_transactions i)) fresh_ledger.
Proof.
  intros _ _.
  assert (Hgoal : ∀ us, snd (main i (append_all us fresh_ledger))
                        = append_all (app us (new_transactions i)) fresh_ledger).
  { intros us. unfold main, new_transactions. rewrite own_ledger_initialize.
    destruct (in_add i); cbn [snd].
    - change (snd (CSV.add_entry (in_date i) (in_amount i) (in_category i)
                     (in_description i) (append_all us fresh_ledger)))
        with (add (form_transaction i) (append_all us fresh_ledger)).
      now rewrite append_all_snoc.
    - now rewrite app_nil_r. }
  split; [|apply Hgoal].
  change (main i None) with (main i (append_all [] fresh_ledger)).
  exact (Hgoal []).
Qed.

Lemma main_only_appends_witness :
  Dates.valid_date (in_date march_inputs) = true ∧
  Dates.in_bounds (in_date march_inputs) = true ∧
  snd (main march_inputs (append_all [salary] fresh_ledger))
    = append_all [salary; form_transaction march_inputs] fresh_ledger.
Proof.
  split; [reflexivity|]. split; [reflexivity|].
  exact (proj2 (main_only_appends march_inputs [salary] eq_refl eq_refl)).
Defined.

(** X16: on a ledger the program wrote itself, a run of main that adds a
    transaction dated inside the viewed range shows, in that same run, the
    table of the stored transactions of the range followed, as its last
    row, by the transaction just added.  (All transactions are valid, dated
    with days a timestamp can hold and described by plain words.) *)
Theorem added_transaction_is_shown (i : inputs) (ts : list Transaction) :
  Forall (fun t => plain_transaction t = true) ts ->
  plain_transaction (form_transaction i) = true ->
  in_add i = true ->
  between (in_start i) (in_end i) (in_date i) = true ->
  In (St_dataframe
        (mkdf header
           (app (map frame_row
                   (List.filter (fun t => between (in_start i) (in_end i) (t_date t)) ts))
                [frame_row (form_transaction i)])))
     (fst (main i (append_all ts fresh_ledger))).
Proof.
  intros Hv Hi Hadd Hin.
  assert (Hord : Dates.date_ltb (in_end i) (in_start i) = false).
  { destruct (Dates.date_ltb (in_end i) (in_start i)) eqn:E; [|reflexivity].
    now rewrite (between_reversed _ _ (in_date i) E) in Hin. }
  unfold main. rewrite own_ledger_initialize, Hadd. cbn [fst].
  change (snd (CSV.add_entry (in_date i) (in_amount i) (in_category i)
                 (in_description i) (append_all ts fresh_ledger)))
    with (add (form_transaction i) (append_all ts fresh_ledger)).
  rewrite append_all_snoc. unfold view. rewrite Hord.
  assert (Hall : Forall (fun t => plain_transaction t = true)
                   (app ts [form_transaction i]))
    by (apply Forall_app; split; [exact Hv|constructor; [exact Hi|constructor]]).
  rewrite (own_ledger_result _ _ _ Hall).
  rewrite List.filter_app, map_app.
  cbn [List.filter form_transaction t_date]. rewrite Hin. cbn [map].
  fold (form_transaction i).
  set (rs := map frame_row (List.filter _ ts)).
  assert (He : empty (mkdf header (app rs [frame_row (form_transaction i)])) = false)
    by (now destruct rs).
  rewrite He. apply in_or_app. right.
  right. right. now left.
Qed.

Lemma added_transaction_is_shown_witness :
  Forall (fun t => plain_transaction t = true) [salary] ∧
  plain_transaction (form_transaction march_inputs) = true ∧
  in_add march_inputs = true ∧
  between (in_start march_inputs) (in_end march_inputs) (in_date march_inputs) = true ∧
  In (St_dataframe
        (mkdf header [frame_row salary; frame_row (form_transaction march_inputs)]))
     (fst (main march_inputs (append_all [salary] fresh_ledger))).
Proof.
  assert (Hv : Forall (fun t => plain_transaction t = true) [salary])
    by (repeat constructor).
  split; [exact Hv|]. split; [reflexivity|]. split; [reflexivity|]. split; [reflexivity|].
  exact (added_transaction_is_shown march_inputs [salary] Hv eq_refl eq_refl eq_refl).
Defined.

End MainEffects.

Section ChartAndRange.

(** X18: the mask of get_transactions compares by day whatever the time of
    day: a timestamp at any time from 00:00:00 to 23:59:59.999999 is in the
    range exactly when its day lies between the start day and the end day. *)
Theorem range_is_by_day (start_date end_date : Dates.date) (t : Dates.datetime) :
  Dates.time_min <= Dates.dt_us t <= Dates.time_max ->
  CSV.in_range (Dates.combine start_date Dates.time_min)
               (Dates.combine end_date Dates.time_max) (Timestamp t)
  = between start_date end_date (Dates.dt_date t).
Proof.
  intros [Hlo Hhi]. unfold CSV.in_range, Dates.dt_leb, between, Dates.date_leb.
  cbn [Dates.dt_date Dates.dt_us Dates.combine].
  now rewrite (proj2 (Z.leb_le _ _) Hlo), (proj2 (Z.leb_le _ _) Hhi), !andb_true_r.
Qed.

Lemma range_is_by_day_witness :
  Dates.time_min <= 43200000000 <= Dates.time_max ∧
  CSV.in_range (Dates.combine (d 1 3 2024) Dates.time_min)
               (Dates.combine (d 1 3 2024) Dates.time_max)
               (Timestamp (Dates.mkdt (d 1 3 2024) 43200000000))
  = between (d 1 3 2024) (d 1 3 2024) (d 1 3 2024).
Proof.
  assert (H : Dates.time_min <= 43200000000 <= Dates.time_max)
    by (unfold Dates.time_min, Dates.time_max; lia).
  split; [exact H|].
  exact (range_is_by_day (d 1 3 2024) (d 1 3 2024)
           (Dates.mkdt (d 1 3 2024) 43200000000) H).
Defined.

End ChartAndRange.

Section OwnLedgerQuery.

Lemma day_total_absent (c : string) (day : Dates.date) (xs : list dated) :
  ¬ In day (map x_day xs) -> day_total c day xs = 0.
Proof.
  intros H. apply day_total_none. intros x Hx E. exfalso. apply H.
  rewrite <- E. now apply in_map.
Qed.

Lemma day_total_cons (c : string) (day : Dates.date) (x : dated) (xs : list dated) :
  day_total c day (x :: xs)
  = (if eq_str c (x_category x) && bool_decide (x_day x = day) then x_amount x else 0)
    + day_total c day xs.
Proof.
  unfold day_total. cbn [List.filter].
  now destruct (eq_str c (x_category x) && bool_decide (x_day x = day)).
Qed.

Lemma day_total_single (c : string) (xs : list dated) :
  NoDup (map x_day xs) ->
  ∀ x, In x xs ->
    day_total c (x_day x) xs = if eq_str c (x_category x) then x_amount x else 0.
Proof.
  induction xs as [|y ys IH]; cbn [map]; intros Hnd x Hx; [destruct Hx|].
  apply NoDup_cons in Hnd as [Hy Hnd]. rewrite list_elem_of_In in Hy.
  rewrite day_total_cons. destruct Hx as [-> | Hx].
  - rewrite bool_decide_eq_true_2 by reflexivity. rewrite andb_true_r.
    rewrite (day_total_absent c (x_day x) ys Hy). lia.
  - rewrite bool_decide_eq_false_2.
    + rewrite andb_false_r. now rewrite (IH Hnd x Hx).
    + intros E. apply Hy. rewrite E. now apply in_map.
Qed.

(** X20: when no two rows of a retrieved frame share a day, the two series
    plot_transactions builds show each transaction on its own: at a row's
    date the Income series holds the row's amount if the row is an Income
    and 0 otherwise, and the Expense series likewise. *)
Theorem one_transaction_per_day (x : dated) (xs : list dated) :
  NoDup (map x_day (x :: xs)) ->
  fst (plot_transactions (retrieved (x :: xs)))
  = Ok (Some
      (map (fun y => (Some (midnight (x_day y)),
                      if eq_str "Income" (x_category y) then x_amount y else 0))
           (x :: xs),
       map (fun y => (Some (midnight (x_day y)),
                      if eq_str "Expense" (x_category y) then x_amount y else 0))
           (x :: xs))).
Proof.
  intros Hnd. rewrite plot_transactions_retrieved. unfold daily.
  do 3 f_equal; apply map_ext_in; intros y Hy;
    now rewrite (day_total_single _ (x :: xs) Hnd y Hy).
Qed.

Lemma one_transaction_per_day_witness :
  NoDup (map x_day (map to_dated [salary; groceries; transport])) ∧
  fst (plot_transactions (retrieved (map to_dated [salary; groceries; transport])))
  = Ok (Some
      (map (fun y => (Some (midnight (x_day y)),
                      if eq_str "Income" (x_category y) then x_amount y else 0))
           (map to_dated [salary; groceries; transport]),
       map (fun y => (Some (midnight (x_day y)),
                      if eq_str "Expense" (x_category y) then x_amount y else 0))
           (map to_dated [salary; groceries; transport]))).
Proof.
  assert (Hnd : NoDup (map x_day (map to_dated [salary; groceries; transport]))).
  { cbn [map to_dated x_day]. repeat constructor; cbn; rewrite ?elem_of_cons;
      intros H; repeat (destruct H as [H|H]; [discriminate H|]);
      try (now apply elem_of_nil in H); try discriminate. }
  split; [exact Hnd|].
  exact (one_transaction_per_day (to_dated salary) (map to_dated [groceries; transport]) Hnd).
Defined.

End OwnLedgerQuery.
